(** * Inventory Management System: the state layer of [main.py]

    A shallow embedding of the module-level state of [main.py] (the
    inventory dict, the transaction and sales lists, the session globals)
    and of the functions that read and change it, followed by the
    properties of the specification stated over that embedding.

    Conventions of the embedding:
    - the module globals are the fields of one record, [World]; a function
      of [main.py] is a computation in a state-and-exception monad over it.
      An exception leaves the globals as they were when it was raised:
      Python rolls nothing back;
    - a Python [dict] is an association list in insertion order, with the
      dict's update rule (assigning to a present key keeps its position);
    - [int] is [Z], the price (a float in the interface) is an exact
      rational [Q], a timestamp is the record of the fields that
      [strftime('%Y-%m-%d %H:%M:%S')] prints;
    - [datetime.now()] is an argument [now] of the function that reads it. *)

From Stdlib Require Import List String Ascii ZArith QArith Bool Lia.
From Stdlib Require Import Permutation DecimalString.
Import ListNotations.

Local Open Scope Z_scope.
Local Open Scope string_scope.
Local Open Scope list_scope.

(* ------------------------------------------------------------------ *)
(** ** Python dicts as insertion-ordered association lists *)

Module Dict.
Section Dict.
Context {V : Type}.

Definition t := list (string * V).

Fixpoint get (k : string) (d : t) : option V :=
  match d with
  | [] => None
  | (k', v) :: d' => if String.eqb k k' then Some v else get k d'
  end.

(** [k in d] *)
Definition mem (k : string) (d : t) : bool :=
  match get k d with Some _ => true | None => false end.

(** [d[k] = v]: a present key keeps its place, a new key goes last. *)
Fixpoint set (k : string) (v : V) (d : t) : t :=
  match d with
  | [] => [(k, v)]
  | (k', v') :: d' =>
      if String.eqb k k' then (k, v) :: d' else (k', v') :: set k v d'
  end.

(** [del d[k]] *)
Fixpoint del (k : string) (d : t) : t :=
  match d with
  | [] => []
  | (k', v') :: d' =>
      if String.eqb k k' then d' else (k', v') :: del k d'
  end.

Definition keys (d : t) : list string := map fst d.
End Dict.
Arguments t : clear implicits.
End Dict.

(* ------------------------------------------------------------------ *)
(** ** Data model *)

(** The fields printed by [strftime('%Y-%m-%d %H:%M:%S')]. *)
Record datetime := mkDatetime {
  dt_year : Z; dt_month : Z; dt_day : Z;
  dt_hour : Z; dt_minute : Z; dt_second : Z
}.

(** The inner dict [{'Price': .., 'Category': .., 'Stock': ..}]. *)
Record Product := mkProduct {
  Price : Q;
  Category : string;
  Stock : Z
}.

(** The tuple appended by [log_transaction]. *)
Record Transaction := mkTransaction {
  t_id : Z;
  t_action : string;
  t_product : string;
  t_quantity : Z;
  t_user : option string;
  t_timestamp : datetime
}.

(** The tuple appended by [sale_product]. *)
Record Sale := mkSale {
  s_id : Z;
  s_product : string;
  s_quantity : Z;
  s_timestamp : datetime
}.

(** What [predict_sales] hands to matplotlib: the monthly history, the
    projected values, and the months the projected values are drawn at
    (a month is the number year * 12 + month). *)
Record Chart := mkChart {
  ch_history : list (Z * Q);
  ch_predicted : list Q;
  ch_future_months : list Z
}.

(** The files the program reads and writes; [None] is a missing file. *)
Record Disk := mkDisk {
  inventory_csv : option (list (string * Product));
  transactions_csv : option (list Transaction);
  sales_csv : option (list Sale);
  sales_prediction_png : option Chart
}.

(** The module globals of [main.py] (lines 18-24) and the disk. *)
Record World := mkWorld {
  inventory : Dict.t Product;
  transactions : list Transaction;
  sales : list Sale;
  admin_credentials : Dict.t string;
  user_credentials : Dict.t string;
  logged_in_user : option string;
  user_role : option string;
  disk : Disk
}.

Definition set_inventory (i : Dict.t Product) (w : World) : World :=
  mkWorld i (transactions w) (sales w) (admin_credentials w)
          (user_credentials w) (logged_in_user w) (user_role w) (disk w).

Definition set_transactions (t : list Transaction) (w : World) : World :=
  mkWorld (inventory w) t (sales w) (admin_credentials w)
          (user_credentials w) (logged_in_user w) (user_role w) (disk w).

Definition set_sales (s : list Sale) (w : World) : World :=
  mkWorld (inventory w) (transactions w) s (admin_credentials w)
          (user_credentials w) (logged_in_user w) (user_role w) (disk w).

Definition set_session (u r : option string) (w : World) : World :=
  mkWorld (inventory w) (transactions w) (sales w) (admin_credentials w)
          (user_credentials w) u r (disk w).

Definition set_disk (d : Disk) (w : World) : World :=
  mkWorld (inventory w) (transactions w) (sales w) (admin_credentials w)
          (user_credentials w) (logged_in_user w) (user_role w) d.

(* ------------------------------------------------------------------ *)
(** ** Computations: state over [World], with Python exceptions *)

Inductive Exn :=
| NameError (name : string)
| ValueError (msg : string).

Inductive Outcome (A : Type) :=
| Returned (a : A)
| Raised (e : Exn).
Arguments Returned {A} a.
Arguments Raised {A} e.

Definition M (A : Type) : Type := World -> Outcome A * World.

Definition ret {A} (a : A) : M A := fun w => (Returned a, w).

Definition raise {A} (e : Exn) : M A := fun w => (Raised e, w).

Definition bind {A B} (m : M A) (k : A -> M B) : M B :=
  fun w =>
    match m w with
    | (Returned a, w') => k a w'
    | (Raised e, w') => (Raised e, w')
    end.

Definition gets {A} (f : World -> A) : M A := fun w => (Returned (f w), w).

Definition modify (f : World -> World) : M unit :=
  fun w => (Returned tt, f w).

Declare Scope py_scope.
Delimit Scope py_scope with py.
Notation "x <- m ;; k" := (bind m (fun x => k))
  (at level 61, m at next level, right associativity) : py_scope.
Notation "m ;; k" := (bind m (fun _ => k))
  (at level 61, right associativity) : py_scope.
Local Open Scope py_scope.

(** The world a computation ends in, whatever its outcome. *)
Definition world_after {A} (m : M A) (w : World) : World := snd (m w).

(** A function returns either one of its message strings or a value. *)
Inductive Reply (A : Type) :=
| Text (s : string)
| Data (a : A).
Arguments Text {A} s.
Arguments Data {A} a.

(* ------------------------------------------------------------------ *)
(** ** Loading and saving (lines 33-54, 273-275) *)

Definition set_inventory_csv (x : option (list (string * Product))) (d : Disk) :=
  mkDisk x (transactions_csv d) (sales_csv d) (sales_prediction_png d).
Definition set_transactions_csv (x : option (list Transaction)) (d : Disk) :=
  mkDisk (inventory_csv d) x (sales_csv d) (sales_prediction_png d).
Definition set_sales_csv (x : option (list Sale)) (d : Disk) :=
  mkDisk (inventory_csv d) (transactions_csv d) x (sales_prediction_png d).
Definition set_sales_prediction_png (x : option Chart) (d : Disk) :=
  mkDisk (inventory_csv d) (transactions_csv d) (sales_csv d) x.

(** [load_data]: each table is read from its file; a missing file gives
    the empty table and is created empty.  A file is held as the rows
    [pd.read_csv] returns, with names and categories as strings: a file in
    which [read_csv] types those columns otherwise (numbers, missing
    values) is outside this model, and the properties of loaded rows are
    stated for plain text ([plain_row]). *)
Definition load_data : M unit :=
  modify (fun w =>
    match inventory_csv (disk w) with
    | Some rows =>
        set_inventory
          (fold_left (fun acc r => Dict.set (fst r) (snd r) acc) rows []) w
    | None =>
        set_disk (set_inventory_csv (Some []) (disk w)) (set_inventory [] w)
    end) ;;
  modify (fun w =>
    match transactions_csv (disk w) with
    | Some rows => set_transactions rows w
    | None =>
        set_disk (set_transactions_csv (Some []) (disk w))
                 (set_transactions [] w)
    end) ;;
  modify (fun w =>
    match sales_csv (disk w) with
    | Some rows => set_sales rows w
    | None =>
        set_disk (set_sales_csv (Some []) (disk w)) (set_sales [] w)
    end).

(** [save_sales] (lines 273-275) rewrites the whole sales file. *)
Definition save_sales : M unit :=
  modify (fun w => set_disk (set_sales_csv (Some (sales w)) (disk w)) w).

(** [main.py] calls [save_inventory()] (lines 94, 106, 118, 266) and
    [save_transactions()] (line 246), but no [def], assignment or import
    of the module binds either name, and neither is a builtin: evaluating
    the name raises [NameError] before anything is called. *)
Definition save_inventory : M unit := raise (NameError "save_inventory").

Definition save_transactions : M unit :=
  raise (NameError "save_transactions").

(* ------------------------------------------------------------------ *)
(** ** Authentication (lines 59-81) *)

Definition credential_matches (tbl : Dict.t string) (username password : string)
  : bool :=
  match Dict.get username tbl with
  | Some p => String.eqb p password
  | None => false
  end.

Definition login (username password : string) : M string :=
  fun w =>
    if credential_matches (admin_credentials w) username password then
      (Returned "Admin login successful",
       set_session (Some username) (Some "admin") w)
    else if credential_matches (user_credentials w) username password then
      (Returned "User login successful",
       set_session (Some username) (Some "user") w)
    else (Returned "Invalid credentials", w).

Definition logout : M string :=
  modify (set_session None None) ;;
  ret "Logged out successfully".

Definition is_admin (w : World) : bool :=
  match user_role w with
  | Some r => String.eqb r "admin"
  | None => false
  end.

Definition is_logged_in (w : World) : bool :=
  match logged_in_user w with
  | Some _ => true
  | None => false
  end.

(* ------------------------------------------------------------------ *)
(** ** Transaction history (lines 243-252) *)

Definition log_transaction (now : datetime) (action product_name : string)
    (quantity : Z) : M unit :=
  modify (fun w =>
    set_transactions
      (transactions w ++
       [mkTransaction (Z.of_nat (List.length (transactions w)) + 1) action
                      product_name quantity (logged_in_user w) now])%list w) ;;
  save_transactions.

Definition view_transactions : M (Reply (list Transaction)) :=
  fun w =>
    if negb (is_logged_in w) then
      (Returned (Text "Please login to view transactions"), w)
    else (Returned (Data (transactions w)), w).

(* ------------------------------------------------------------------ *)
(** ** CRUD operations on the inventory (lines 86-120) *)

Definition add_product (now : datetime) (product_name : string) (price : Q)
    (category : string) (stock : Z) : M string :=
  fun w =>
    if negb (is_logged_in w) then
      (Returned "Please login to perform this action", w)
    else if negb (is_admin w) then (Returned "Admin access required", w)
    else if Dict.mem product_name (inventory w) then
      (Returned "Product already exists", w)
    else
      (modify (fun w =>
         set_inventory
           (Dict.set product_name (mkProduct price category stock)
                     (inventory w)) w) ;;
       save_inventory ;;
       log_transaction now "Add" product_name stock ;;
       ret ("Product '" ++ product_name ++ "' added successfully.")%string) w.

Definition update_product (now : datetime) (product_name : string) (price : Q)
    (category : string) (stock : Z) : M string :=
  fun w =>
    if negb (is_logged_in w) then
      (Returned "Please login to perform this action", w)
    else if negb (is_admin w) then (Returned "Admin access required", w)
    else if negb (Dict.mem product_name (inventory w)) then
      (Returned "Product not found", w)
    else
      (modify (fun w =>
         set_inventory
           (Dict.set product_name (mkProduct price category stock)
                     (inventory w)) w) ;;
       save_inventory ;;
       log_transaction now "Update" product_name stock ;;
       ret ("Product '" ++ product_name ++ "' updated successfully.")%string) w.

Definition delete_product (now : datetime) (product_name : string)
  : M string :=
  fun w =>
    if negb (is_logged_in w) then
      (Returned "Please login to perform this action", w)
    else if negb (is_admin w) then (Returned "Admin access required", w)
    else if negb (Dict.mem product_name (inventory w)) then
      (Returned "Product not found", w)
    else
      (modify (fun w =>
         set_inventory (Dict.del product_name (inventory w)) w) ;;
       save_inventory ;;
       log_transaction now "Delete" product_name 0 ;;
       ret ("Product '" ++ product_name ++ "' deleted successfully.")%string) w.

(* ------------------------------------------------------------------ *)
(** ** Sales (lines 257-271) *)

(** [str] of a Python int. *)
Definition str_of_int (z : Z) : string := NilZero.string_of_int (Z.to_int z).

(** [inventory[product_name]['Stock']]; the key is known to be present
    where the source reads it. *)
Definition stock_of (product_name : string) (w : World) : Z :=
  match Dict.get product_name (inventory w) with
  | Some p => Stock p
  | None => 0
  end.

(** [inventory[product_name]['Stock'] -= quantity]: the inner dict is
    changed in place, so the product keeps its position. *)
Definition decrement_stock (product_name : string) (quantity : Z)
    (i : Dict.t Product) : Dict.t Product :=
  match Dict.get product_name i with
  | Some p =>
      Dict.set product_name
               (mkProduct (Price p) (Category p) (Stock p - quantity)) i
  | None => i
  end.

Definition sale_product (now : datetime) (product_name : string)
    (quantity : Z) : M string :=
  fun w =>
    if negb (is_logged_in w) then
      (Returned "Please login to perform this action", w)
    else if negb (Dict.mem product_name (inventory w)) then
      (Returned "Product not found", w)
    else if (stock_of product_name w <? quantity)%Z then
      (Returned "Insufficient stock", w)
    else
      (modify (fun w =>
         set_inventory (decrement_stock product_name quantity (inventory w)) w) ;;
       save_inventory ;;
       sale_id <- gets (fun w => Z.of_nat (List.length (sales w)) + 1) ;;
       modify (fun w =>
         set_sales (sales w ++ [mkSale sale_id product_name quantity now])%list w) ;;
       save_sales ;;
       ret ("Sold " ++ str_of_int quantity ++ " of '" ++ product_name ++ "'")%string)
        w.

(* ------------------------------------------------------------------ *)
(** ** Views of the inventory (lines 122-171) *)

(** A row of the frame: the product name and its three fields, under the
    columns ['Product Name', 'Price', 'Category', 'Stock']. *)
Definition Row : Type := string * Product.

(** The three lines shared by every view,
    [[
      df = pd.DataFrame.from_dict(d, orient='index')
      df.reset_index(inplace=True)
      df.columns = ['Product Name', 'Price', 'Category', 'Stock']
    ]]
    The rows come in the dict's order.  From an empty dict the frame has
    no column, [reset_index] gives it the single column 'index', and
    assigning four column names raises [ValueError]. *)
Definition frame_of_dict (d : Dict.t Product) : M (list Row) :=
  match d with
  | [] =>
      raise (ValueError
        "Length mismatch: Expected axis has 1 elements, new values have 4 elements")
  | _ :: _ => ret d
  end.

Definition view_inventory : M (Reply (list Row)) :=
  fun w =>
    if negb (is_logged_in w) then
      (Returned (Text "Please login to view the inventory"), w)
    else (df <- frame_of_dict (inventory w) ;; ret (Data df)) w.

(** [str.lower] as it acts on ASCII text: the letters A-Z are folded and
    nothing else.  Python folds every cased letter of Unicode, so the
    properties that reach [lower] are stated for ASCII text ([is_ascii]). *)
Definition lower_ascii (c : ascii) : ascii :=
  let n := nat_of_ascii c in
  if (Nat.leb 65 n && Nat.leb n 90)%bool then ascii_of_nat (n + 32) else c.

Fixpoint lower (s : string) : string :=
  match s with
  | EmptyString => EmptyString
  | String c s' => String (lower_ascii c) (lower s')
  end.

(** [needle in hay] on strings. *)
Fixpoint contains (needle hay : string) {struct hay} : bool :=
  if String.prefix needle hay then true
  else match hay with
       | EmptyString => false
       | String _ hay' => contains needle hay'
       end.

(** [category] is [None] when the argument is left out; [None] and the
    empty string are the falsy values of [if category:]. *)
Definition search_products_by_category (category : option string)
  : M (Reply (list Row)) :=
  fun w =>
    if negb (is_logged_in w) then
      (Returned (Text "Please login to search products"), w)
    else
      let filtered_inventory :=
        match category with
        | None | Some EmptyString => inventory w
        | Some c =>
            filter (fun kv => contains (lower c) (lower (Category (snd kv))))
                   (inventory w)
        end in
      (df <- frame_of_dict filtered_inventory ;; ret (Data df)) w.

Definition low_stock_alerts (threshold : Z) : M (Reply (list Row)) :=
  fun w =>
    if negb (is_logged_in w) then
      (Returned (Text "Please login to view low stock alerts"), w)
    else
      let low_stock_items :=
        filter (fun kv => (Stock (snd kv) <=? threshold)%Z) (inventory w) in
      (df <- frame_of_dict low_stock_items ;; ret (Data df)) w.

(* ------------------------------------------------------------------ *)
(** ** Sorting (lines 230-238) *)

Inductive Column := ProductName | PriceColumn | CategoryColumn | StockColumn.

(** [by in df.columns] *)
Definition column_of_name (by_ : string) : option Column :=
  if String.eqb by_ "Product Name" then Some ProductName
  else if String.eqb by_ "Price" then Some PriceColumn
  else if String.eqb by_ "Category" then Some CategoryColumn
  else if String.eqb by_ "Stock" then Some StockColumn
  else None.

(** The values of a column: strings, floats or ints. *)
Inductive Cell :=
| CStr (s : string)
| CFloat (q : Q)
| CInt (z : Z).

Definition cell (c : Column) (r : Row) : Cell :=
  match c with
  | ProductName => CStr (fst r)
  | PriceColumn => CFloat (Price (snd r))
  | CategoryColumn => CStr (Category (snd r))
  | StockColumn => CInt (Stock (snd r))
  end.

(** [a <= b] within a column; strings compare by code point. *)
Definition cell_leb (a b : Cell) : bool :=
  match a, b with
  | CStr s, CStr t => String.leb s t
  | CFloat p, CFloat q => Qle_bool p q
  | CInt x, CInt y => (x <=? y)%Z
  | _, _ => false
  end.

(** [l[idx]] with an index array. *)
Definition take {A} (l : list A) (idx : list nat) : list A :=
  flat_map (fun i => match nth_error l i with
                     | Some x => [x]
                     | None => []
                     end) idx.

Fixpoint sorted {A} (le : A -> A -> bool) (l : list A) : bool :=
  match l with
  | [] => true
  | a :: t =>
      match t with
      | [] => true
      | b :: _ => le a b && sorted le t
      end
  end.

(** What numpy documents of [a.argsort(kind)]: the indices that sort [a].
    [sort_values] is called without [kind], hence with pandas' default
    'quicksort', for which neither library promises an order among equal
    keys (only 'mergesort' and 'stable' are documented as stable). *)
Definition argsort_spec (a : list Cell) (idx : list nat) : Prop :=
  Permutation idx (seq 0 (List.length a)) /\
  sorted cell_leb (take a idx) = true.

(** The array [nargsort] hands to numpy: the column, reversed for a
    descending sort. *)
Definition argsort_input (items : list Cell) (ascending : bool) : list Cell :=
  if ascending then items else rev items.

Section Sorting.
(** numpy's [argsort] with [kind='quicksort']: library code, whose
    algorithm depends on the numpy version and on the CPU. *)
Variable np_argsort : list Cell -> list nat.

(** pandas' [nargsort] on a column without missing values: a descending
    sort reverses the column, sorts it, and reverses the indexer. *)
Definition nargsort (items : list Cell) (ascending : bool) : list nat :=
  let idx := seq 0 (List.length items) in
  let non_nans := argsort_input items ascending in
  let non_nan_idx := if ascending then idx else rev idx in
  let indexer := take non_nan_idx (np_argsort non_nans) in
  if ascending then indexer else rev indexer.

(** [df.sort_values(by=by, ascending=ascending, inplace=True)] *)
Definition sort_values (c : Column) (ascending : bool) (df : list Row)
  : list Row :=
  take df (nargsort (map (cell c) df) ascending).

Definition sort_inventory (by_ order : string) : M (Reply (list Row)) :=
  fun w =>
    if negb (is_logged_in w) then
      (Returned (Text "Please login to sort the inventory"), w)
    else
      (df <- frame_of_dict (inventory w) ;;
       match column_of_name by_ with
       | Some c => ret (Data (sort_values c (String.eqb order "asc") df))
       | None => ret (Data df)
       end) w.
End Sorting.

(* ------------------------------------------------------------------ *)
(** ** Sales prediction (lines 280-314) *)

Definition month_index (d : datetime) : Z := dt_year d * 12 + dt_month d.

Definition sumZ (l : list Z) : Z := fold_right Z.add 0 l.

(** [set_index('Sale Timestamp').resample('M').sum().fillna(0)]: one
    bucket per calendar month from the first to the last month with a
    sale, holding the quantity sold in it (0 for a month without sale). *)
Definition resample_monthly (rows : list Sale) : list (Z * Z) :=
  match map (fun s => month_index (s_timestamp s)) rows with
  | [] => []
  | m :: ms =>
      let lo := fold_right Z.min m ms in
      let hi := fold_right Z.max m ms in
      map (fun k =>
             let t := lo + Z.of_nat k in
             (t, sumZ (map s_quantity
                        (filter (fun s => (month_index (s_timestamp s) =? t)%Z)
                                rows))))
          (seq 0 (Z.to_nat (hi - lo + 1)))
  end.

Record LinearModel := mkLinearModel { coef : Q; intercept : Q }.

Definition sumQ (l : list Q) : Q := fold_right Qplus (0 # 1) l.

(** The least-squares line through the points, in exact arithmetic; the
    slope is 0 when all abscissas coincide. *)
Definition least_squares (xs ys : list Q) : LinearModel :=
  let n := inject_Z (Z.of_nat (List.length xs)) in
  let mx := (sumQ xs / n)%Q in
  let my := (sumQ ys / n)%Q in
  let sxx := sumQ (map (fun x => ((x - mx) * (x - mx))%Q) xs) in
  let sxy :=
    sumQ (map (fun xy => ((fst xy - mx) * (snd xy - my))%Q) (combine xs ys)) in
  let a := if Qeq_bool sxx (0 # 1) then (0 # 1) else (sxy / sxx)%Q in
  mkLinearModel a (my - a * mx)%Q.

(** [LinearRegression().fit(X, y)]: scikit-learn validates its input and
    refuses an array without samples. *)
Definition LinearRegression_fit (X y : list Q) : M LinearModel :=
  match X with
  | [] =>
      raise (ValueError
        "Found array with 0 sample(s) (shape=(0, 1)) while a minimum of 1 is required by LinearRegression.")
  | _ :: _ => ret (least_squares X y)
  end.

Definition model_predict (m : LinearModel) (t : Q) : Q :=
  (coef m * t + intercept m)%Q.

(** [model.predict(X)]: the input is validated as in [fit], so an array
    without samples is refused. *)
Definition LinearRegression_predict (m : LinearModel) (X : list Q)
  : M (list Q) :=
  match X with
  | [] =>
      raise (ValueError
        "Found array with 0 sample(s) (shape=(0, 1)) while a minimum of 1 is required by LinearRegression.")
  | _ :: _ => ret (map (model_predict m) X)
  end.

(** The regression is computed in exact arithmetic where the code has
    floats.  [future_time] is empty when [periods] is zero or negative, and
    [model.predict] then raises.  [pd.date_range(last, periods, freq='M')]
    starts at the last month of the history, which is a month end. *)
Definition predict_sales (product_name : string) (periods : Z) : M string :=
  fun w =>
    if negb (is_logged_in w) then
      (Returned "Please login to perform this action", w)
    else
      let sales_df :=
        resample_monthly
          (filter (fun s => String.eqb (s_product s) product_name) (sales w)) in
      let t0 := match sales_df with
                | [] => 0
                | (t, _) :: _ => t
                end in
      let Time := map (fun b => inject_Z (fst b - t0)) sales_df in
      let y := map (fun b => inject_Z (snd b)) sales_df in
      (model <- LinearRegression_fit Time y ;;
       let tmax := Z.of_nat (List.length sales_df) - 1 in
       let future_time :=
         map (fun k => inject_Z (tmax + 1 + Z.of_nat k))
             (seq 0 (Z.to_nat periods)) in
       future_sales <- LinearRegression_predict model future_time ;;
       let future_dates :=
         map (fun k => t0 + tmax + Z.of_nat k) (seq 0 (Z.to_nat periods)) in
       modify (fun w =>
         set_disk
           (set_sales_prediction_png
              (Some (mkChart (combine (map fst sales_df) y) future_sales
                             future_dates))
              (disk w)) w) ;;
       ret "sales_prediction.png") w.

(* ------------------------------------------------------------------ *)
(** ** The program as a whole *)

(** The globals as lines 18-24 initialise them, on a disk without files. *)
Definition module_globals : World :=
  mkWorld [] [] [] [("harsh", "harsh")] [("user", "user")] None None
          (mkDisk None None None None).

(** The state after [load_data()] on line 319. *)
Definition initial_world : World := world_after load_data module_globals.

(** The calls the interface makes on the state. *)
Inductive Call :=
| Login (username password : string)
| Logout
| AddProduct (now : datetime) (product_name : string) (price : Q)
             (category : string) (stock : Z)
| UpdateProduct (now : datetime) (product_name : string) (price : Q)
                (category : string) (stock : Z)
| DeleteProduct (now : datetime) (product_name : string)
| SaleProduct (now : datetime) (product_name : string) (quantity : Z).

Definition run_call (c : Call) (w : World) : World :=
  match c with
  | Login u p => world_after (login u p) w
  | Logout => world_after logout w
  | AddProduct now n p c s => world_after (add_product now n p c s) w
  | UpdateProduct now n p c s => world_after (update_product now n p c s) w
  | DeleteProduct now n => world_after (delete_product now n) w
  | SaleProduct now n q => world_after (sale_product now n q) w
  end.

Definition run_calls (cs : list Call) (w : World) : World :=
  fold_left (fun w c => run_call c w) cs w.

(** A state is reachable when some sequence of calls leads to it from the
    initial one. *)
Definition reachable (w : World) : Prop :=
  exists cs, w = run_calls cs initial_world.

(* ------------------------------------------------------------------ *)
(** ** Vocabulary of the properties *)

Definition stocks_nonneg (w : World) : Prop :=
  Forall (fun kv => 0 <= Stock (snd kv)) (inventory w).

(** The stock an [add] or [update] call is given is not negative. *)
Definition stock_arg_nonneg (c : Call) : Prop :=
  match c with
  | AddProduct _ _ _ _ s | UpdateProduct _ _ _ _ s => 0 <= s
  | _ => True
  end.

(** The ids of the log are 1, 2, ..., n in order. *)
Definition ids_dense (ts : list Transaction) : Prop :=
  map t_id ts = map (fun k => Z.of_nat k + 1) (seq 0 (List.length ts)).

(** The position of a product in the inventory. *)
Fixpoint position (name : string) (d : Dict.t Product) : option nat :=
  match d with
  | [] => None
  | (k, _) :: d' =>
      if String.eqb name k then Some O
      else option_map S (position name d')
  end.

Definition cell_eqb (a b : Cell) : bool := cell_leb a b && cell_leb b a.

(** Rows with equal keys come in the order the inventory has them. *)
Definition ties_keep_insertion_order (c : Column) (original rows : list Row)
  : Prop :=
  forall i j r1 r2 p1 p2,
    (i < j)%nat ->
    nth_error rows i = Some r1 -> nth_error rows j = Some r2 ->
    cell_eqb (cell c r1) (cell c r2) = true ->
    position (fst r1) original = Some p1 ->
    position (fst r2) original = Some p2 ->
    (p1 < p2)%nat.

(** *** numpy's quicksort on an index array

    [a.argsort(kind='quicksort')] on a column of strings (dtype object) is
    numpy's generic [npy_aquicksort] (npysort/quicksort.cpp): a quicksort
    with a median-of-three pivot on the pieces of more than 17 elements, an
    insertion sort on the others, and a heapsort on a piece reached past
    the depth limit.  It sorts the index array [tosort] by the values [v]
    and never moves the values.  The numeric columns go through the same
    code unless the build of numpy dispatches them to a vectorised sort. *)

(** [a < b] within a column. *)
Definition cell_ltb (a b : Cell) : bool := negb (cell_leb b a).

Section Npysort.
Local Open Scope nat_scope.
Variable v : list Cell.

(** [v[tosort[p]]] *)
Definition value_at (tosort : list nat) (p : nat) : Cell :=
  nth (nth p tosort O) v (CInt 0).

(** [tosort[p] = x] *)
Fixpoint store (p x : nat) (tosort : list nat) : list nat :=
  match tosort, p with
  | [], _ => []
  | _ :: t, O => x :: t
  | y :: t, S p' => y :: store p' x t
  end.

(** [INTP_SWAP(tosort[p], tosort[q])] *)
Definition intp_swap (p q : nat) (tosort : list nat) : list nat :=
  store q (nth p tosort O) (store p (nth q tosort O) tosort).

(** [do ++pi; while (v[*pi] < vp);]  The element at [pr - 1] is the pivot,
    so the scan stops inside the piece; the fuel is the length. *)
Fixpoint scan_right (fuel : nat) (tosort : list nat) (vp : Cell) (pi : nat)
  : nat :=
  match fuel with
  | O => S pi
  | S fuel' =>
      if cell_ltb (value_at tosort (S pi)) vp
      then scan_right fuel' tosort vp (S pi)
      else S pi
  end.

(** [do --pj; while (vp < v[*pj]);] *)
Fixpoint scan_left (fuel : nat) (tosort : list nat) (vp : Cell) (pj : nat)
  : nat :=
  match fuel with
  | O => Nat.pred pj
  | S fuel' =>
      if cell_ltb vp (value_at tosort (Nat.pred pj))
      then scan_left fuel' tosort vp (Nat.pred pj)
      else Nat.pred pj
  end.

(** The [for (;;)] of the partition: scan, stop when the scans meet, swap
    otherwise.  Returns the index array and the final [pi]. *)
Fixpoint partition_scan (fuel : nat) (tosort : list nat) (vp : Cell)
    (pi pj : nat) : list nat * nat :=
  match fuel with
  | O => (tosort, pi)
  | S fuel' =>
      let pi' := scan_right (List.length tosort) tosort vp pi in
      let pj' := scan_left (List.length tosort) tosort vp pj in
      if Nat.leb pj' pi' then (tosort, pi')
      else partition_scan fuel' (intp_swap pi' pj' tosort) vp pi' pj'
  end.

(** One partition of the piece [pl..pr]: median of three into [pm], the
    pivot parked at [pr - 1], the scans, the pivot put at [pi]. *)
Definition partition (tosort : list nat) (pl pr : nat) : list nat * nat :=
  let pm := (pl + Nat.div2 (pr - pl))%nat in
  let t1 := if cell_ltb (value_at tosort pm) (value_at tosort pl)
            then intp_swap pm pl tosort else tosort in
  let t2 := if cell_ltb (value_at t1 pr) (value_at t1 pm)
            then intp_swap pr pm t1 else t1 in
  let t3 := if cell_ltb (value_at t2 pm) (value_at t2 pl)
            then intp_swap pm pl t2 else t2 in
  let vp := value_at t3 pm in
  let t4 := intp_swap pm (pr - 1) t3 in
  let '(t5, pi) := partition_scan (List.length tosort) t4 vp pl (pr - 1) in
  (intp_swap pi (pr - 1) t5, pi).

(** The inner [while (pj > pl && vp < v[*pk])] of the insertion sort:
    shift the larger elements one place up.  Returns the array and the
    place left free for the element. *)
Fixpoint shift_up (fuel : nat) (tosort : list nat) (vp : Cell) (pl pj : nat)
  : list nat * nat :=
  match fuel with
  | O => (tosort, pj)
  | S fuel' =>
      if (Nat.ltb pl pj && cell_ltb vp (value_at tosort (pj - 1)))%bool
      then shift_up fuel' (store pj (nth (pj - 1) tosort O) tosort) vp pl
                    (pj - 1)
      else (tosort, pj)
  end.

(** [for (pi = pl + 1; pi <= pr; ++pi)]: the insertion sort of the piece
    [pl..pr]; [count] is [pr - pl]. *)
Fixpoint insertion_sort (count : nat) (tosort : list nat) (pl pi : nat)
  : list nat :=
  match count with
  | O => tosort
  | S count' =>
      let vi := nth pi tosort O in
      let vp := nth vi v (CInt 0) in
      let '(t, pj) := shift_up (List.length tosort) tosort vp pl pi in
      insertion_sort count' (store pj vi t) pl (S pi)
  end.

(** The sift of [npy_aheapsort], on the piece that starts at [pl] and is
    indexed from 1: [a[k]] is [tosort[pl + k - 1]]. *)
Fixpoint sift (fuel : nat) (tosort : list nat) (pl n tmp i j : nat)
  : list nat :=
  match fuel with
  | O => store (pl + i - 1) tmp tosort
  | S fuel' =>
      if Nat.leb j n then
        let j' := if (Nat.ltb j n &&
                      cell_ltb (value_at tosort (pl + j - 1))
                               (value_at tosort (pl + j)))%bool
                  then S j else j in
        if cell_ltb (nth tmp v (CInt 0)) (value_at tosort (pl + j' - 1))
        then sift fuel' (store (pl + i - 1) (nth (pl + j' - 1) tosort O) tosort)
                  pl n tmp j' (j' + j')
        else store (pl + i - 1) tmp tosort
      else store (pl + i - 1) tmp tosort
  end.

(** [for (l = n >> 1; l > 0; --l)]: the heap is built. *)
Fixpoint heapify (l : nat) (tosort : list nat) (pl n : nat) : list nat :=
  match l with
  | O => tosort
  | S l' =>
      let tmp := nth (pl + l - 1) tosort O in
      heapify l' (sift n tosort pl n tmp l (l + l)) pl n
  end.

(** [for (; n > 1;)]: the largest element goes last, the rest is sifted. *)
Fixpoint heap_extract (n : nat) (tosort : list nat) (pl : nat) : list nat :=
  match n with
  | O => tosort
  | S O => tosort
  | S n' =>
      let tmp := nth (pl + n - 1) tosort O in
      let t := store (pl + n - 1) (nth pl tosort O) tosort in
      heap_extract n' (sift n t pl n' tmp 1 2) pl
  end.

Definition aheapsort (tosort : list nat) (pl n : nat) : list nat :=
  heap_extract n (heapify (Nat.div2 n) tosort pl n) pl.

(** The outer loop.  [check] is true at the head of the [while (1)], where
    the depth is tested, and false inside the [while ((pr - pl) > 16)],
    where it is not.  The stack holds the pieces put aside with the depth
    they were pushed at.  Each round either partitions, which shortens the
    piece, or finishes a piece, so twice the length and two rounds are
    enough. *)
Fixpoint aquicksort_loop (fuel : nat) (check : bool) (tosort : list nat)
    (pl pr : nat) (stack : list (nat * nat * Z)) (cdepth : Z) : list nat :=
  match fuel with
  | O => tosort
  | S fuel' =>
      if (check && (cdepth <? 0)%Z)%bool then
        let t := aheapsort tosort pl (pr - pl + 1) in
        match stack with
        | [] => t
        | (l, r, d) :: stack' => aquicksort_loop fuel' true t l r stack' d
        end
      else if Nat.ltb 16 (pr - pl) then
        let '(t, pi) := partition tosort pl pr in
        let cdepth' := (cdepth - 1)%Z in
        if Nat.ltb (pi - pl) (pr - pi) then
          aquicksort_loop fuel' false t pl (pi - 1)
                          ((S pi, pr, cdepth') :: stack) cdepth'
        else
          aquicksort_loop fuel' false t (S pi) pr
                          ((pl, pi - 1, cdepth') :: stack) cdepth'
      else
        let t := insertion_sort (pr - pl) tosort pl (S pl) in
        match stack with
        | [] => t
        | (l, r, d) :: stack' => aquicksort_loop fuel' true t l r stack' d
        end
  end.
End Npysort.

(** [npy_get_msb]: the position of the highest bit. *)
Definition npy_get_msb (n : nat) : Z := Z.log2 (Z.of_nat n).

(** [v.argsort(kind='quicksort')]: the index array starts as 0..n-1. *)
Definition npy_aquicksort (v : list Cell) : list nat :=
  let n := List.length v in
  match n with
  | O => []
  | S _ =>
      aquicksort_loop v (2 * n + 2) true (seq 0 n) 0 (n - 1) []
                      (npy_get_msb n * 2)
  end.

(** A plain stable sort that keeps numpy's contract: an insertion sort
    that puts an element before the equal ones. *)
Fixpoint insert_before (x : nat * Cell) (l : list (nat * Cell))
  : list (nat * Cell) :=
  match l with
  | [] => [x]
  | y :: t =>
      if cell_leb (snd x) (snd y) then x :: y :: t else y :: insert_before x t
  end.

Definition argsort_stable (a : list Cell) : list nat :=
  map fst (fold_right insert_before [] (combine (seq 0 (List.length a)) a)).

(** The product has no entry in the sales ledger. *)
Definition no_sales_of (name : string) (w : World) : Prop :=
  forall s, In s (sales w) -> s_product s <> name.

(* ------------------------------------------------------------------ *)
(** ** Concrete states *)

(** The scenario of the specification: an admin adds a Widget with stock
    50, then a plain user logs in. *)
Definition noon : datetime := mkDatetime 2024 1 15 12 0 0.

Definition widget_shop : World :=
  run_calls [Login "harsh" "harsh";
             AddProduct noon "Widget" (999 # 100) "Tools" 50;
             Login "user" "user"] initial_world.

(** An admin session on the empty store. *)
Definition admin_session : World :=
  run_calls [Login "harsh" "harsh"] initial_world.

Definition widget : Product := mkProduct (999 # 100) "Tools" 50.

(** The example of the specification: A and C with stock 5, B with 20. *)
Definition abc_shop : World :=
  run_calls [Login "harsh" "harsh";
             AddProduct noon "A" (1 # 1) "x" 5;
             AddProduct noon "B" (1 # 1) "x" 20;
             AddProduct noon "C" (1 # 1) "x" 5] initial_world.

(** A world whose two tables both know "root", with different passwords. *)
Definition shared_name_world : World :=
  mkWorld [] [] [] [("root", "a")] [("root", "u")] None None
          (mkDisk None None None None).

(* ------------------------------------------------------------------ *)
(** ** Export and the interface wrappers (lines 176-179, 322-326) *)

Definition INVENTORY_CSV : string := "inventory.csv".

(** [export_inventory] hands out the path of the inventory file; it
    writes nothing itself. *)
Definition export_inventory : M string :=
  fun w =>
    if negb (is_logged_in w) then
      (Returned "Please login to export the inventory", w)
    else (Returned INVENTORY_CSV, w).

Definition login_wrapper (username password : string) : M string :=
  login username password.

Definition logout_wrapper : M string := logout.

(** The exception of [frame_of_dict] on an empty table. *)
Definition length_mismatch : Exn :=
  ValueError
    "Length mismatch: Expected axis has 1 elements, new values have 4 elements".

(** The session is one of the three the two credential tables of lines
    21-22 allow. *)
Definition session_consistent (w : World) : Prop :=
  admin_credentials w = [("harsh", "harsh")] /\
  user_credentials w = [("user", "user")] /\
  ((logged_in_user w = None /\ user_role w = None) \/
   (logged_in_user w = Some "harsh" /\ user_role w = Some "admin") \/
   (logged_in_user w = Some "user" /\ user_role w = Some "user")).

(** The keys of the inventory are distinct, as those of a dict are. *)
Definition names_unique (w : World) : Prop :=
  NoDup (Dict.keys (inventory w)).


(** The rows of a file, none for a missing file. *)
Definition rows_of {A} (file : option (list A)) : list A :=
  match file with
  | Some rows => rows
  | None => []
  end.

(** Eighteen products of one category, added in the order of their
    names. *)
Definition tool_names : list string :=
  ["P01"; "P02"; "P03"; "P04"; "P05"; "P06"; "P07"; "P08"; "P09";
   "P10"; "P11"; "P12"; "P13"; "P14"; "P15"; "P16"; "P17"; "P18"].

Definition tool_shop : World :=
  run_calls
    (Login "harsh" "harsh"
     :: map (fun n => AddProduct noon n (1 # 1) "Tools" 1) tool_names)
    initial_world.

(** A column read in the order asked for: as it is for 'asc', backwards
    otherwise. *)
Definition in_order {A} (order : string) (l : list A) : list A :=
  if String.eqb order "asc" then l else rev l.

(** Everything but the session is the same in the two states. *)
Definition same_data (w w' : World) : Prop :=
  inventory w' = inventory w /\
  transactions w' = transactions w /\
  sales w' = sales w /\
  admin_credentials w' = admin_credentials w /\
  user_credentials w' = user_credentials w /\
  disk w' = disk w.

(** Text in which every character is an ASCII character.  On such text
    [lower] is Python's [str.lower]. *)
Fixpoint is_ascii (s : string) : bool :=
  match s with
  | EmptyString => true
  | String c s' => (Nat.ltb (nat_of_ascii c) 128 && is_ascii s')%bool
  end.

Definition categories_ascii (w : World) : Prop :=
  forall kv, In kv (inventory w) -> is_ascii (Category (snd kv)) = true.

(** Text that [pd.read_csv] hands back as the string it is: it starts
    with an ASCII letter, so it is no number, and it is none of the words
    read as a missing value, a boolean or an infinity, in any letter
    case. *)
Definition is_letter (c : ascii) : bool :=
  let n := nat_of_ascii c in
  ((Nat.leb 65 n && Nat.leb n 90) || (Nat.leb 97 n && Nat.leb n 122))%bool.

Definition reserved_words : list string :=
  ["na"; "n/a"; "nan"; "null"; "none"; "true"; "false"; "inf"; "infinity"].

Definition plain_text (s : string) : bool :=
  match s with
  | EmptyString => false
  | String c _ =>
      (is_letter c && is_ascii s
       && negb (existsb (String.eqb (lower s)) reserved_words))%bool
  end.

(** A row of the inventory file whose name and category are plain text. *)
Definition plain_row (r : string * Product) : Prop :=
  plain_text (fst r) = true /\ plain_text (Category (snd r)) = true.

(* ================================================================== *)
(** * Properties *)

(** ** The guards *)

Lemma is_logged_in_None w : logged_in_user w = None -> is_logged_in w = false.
Proof. unfold is_logged_in; intros ->; reflexivity. Qed.

Lemma is_logged_in_Some w u :
  logged_in_user w = Some u -> is_logged_in w = true.
Proof. unfold is_logged_in; intros ->; reflexivity. Qed.

Lemma is_admin_false w : user_role w <> Some "admin" -> is_admin w = false.
Proof.
  unfold is_admin; destruct (user_role w) as [r|]; [|reflexivity].
  intros H; destruct (String.eqb_spec r "admin"); [subst; congruence|reflexivity].
Qed.

Lemma is_admin_true w : user_role w = Some "admin" -> is_admin w = true.
Proof. unfold is_admin; intros ->; reflexivity. Qed.

Lemma credential_matches_iff tbl username password :
  credential_matches tbl username password = true <->
  Dict.get username tbl = Some password.
Proof.
  unfold credential_matches; destruct (Dict.get username tbl) as [p|].
  - rewrite String.eqb_eq; split; congruence.
  - split; discriminate.
Qed.

Lemma credential_matches_false tbl username password :
  Dict.get username tbl <> Some password ->
  credential_matches tbl username password = false.
Proof.
  intros H; destruct (credential_matches tbl username password) eqn:E;
    [apply credential_matches_iff in E; contradiction | reflexivity].
Qed.

Lemma mem_get_Some {V} k (d : Dict.t V) v :
  Dict.get k d = Some v -> Dict.mem k d = true.
Proof. unfold Dict.mem; intros ->; reflexivity. Qed.

Lemma mem_get_None {V} k (d : Dict.t V) :
  Dict.get k d = None -> Dict.mem k d = false.
Proof. unfold Dict.mem; intros ->; reflexivity. Qed.

(** ** C1: a sale that cannot be served *)

(** C1. For a logged-in principal, [sale_product] on a product in stock
    [s] with a quantity above [s] returns "Insufficient stock", and on a
    name absent from the inventory returns "Product not found"; in both
    cases the whole state (stock, inventory, sales ledger, log, disk) is
    what it was. *)
Theorem sale_product_rejected :
  forall now w u product_name quantity,
    logged_in_user w = Some u ->
    (forall p,
        Dict.get product_name (inventory w) = Some p ->
        Stock p < quantity ->
        sale_product now product_name quantity w
        = (Returned "Insufficient stock", w)) /\
    (Dict.get product_name (inventory w) = None ->
     sale_product now product_name quantity w
     = (Returned "Product not found", w)).
Proof.
  intros now w u product_name quantity Hu.
  apply is_logged_in_Some in Hu.
  split.
  - intros p Hget Hlt. unfold sale_product.
    rewrite Hu, (mem_get_Some _ _ _ Hget). simpl.
    unfold stock_of. rewrite Hget.
    apply Z.ltb_lt in Hlt. rewrite Hlt. reflexivity.
  - intros Hget. unfold sale_product.
    rewrite Hu, (mem_get_None _ _ Hget). reflexivity.
Qed.

Lemma sale_product_rejected_witness :
  sale_product noon "Widget" 1000 widget_shop
  = (Returned "Insufficient stock", widget_shop) /\
  sale_product noon "Gadget" 1 widget_shop
  = (Returned "Product not found", widget_shop).
Proof.
  destruct (sale_product_rejected noon widget_shop "user" "Widget" 1000
              eq_refl) as [Hstock _].
  destruct (sale_product_rejected noon widget_shop "user" "Gadget" 1
              eq_refl) as [_ Habsent].
  split.
  - apply (Hstock (mkProduct (999 # 100) "Tools" 50)); [reflexivity | simpl; lia].
  - apply Habsent. reflexivity.
Defined.

(** ** C9, C10: login *)

(** C9. [login] looks the pair up in the admin table first and in the user
    table second: the first table that holds the pair decides the role (a
    name in both tables with its admin password becomes admin), and a pair
    in neither table gets "Invalid credentials".  After a successful login
    the principal is the name given and the role is the one of the table
    that matched, and nothing but the session has changed. *)
Theorem login_admin_table_first :
  forall w username password,
    (Dict.get username (admin_credentials w) = Some password ->
     login username password w
     = (Returned "Admin login successful",
        set_session (Some username) (Some "admin") w) /\
     logged_in_user (world_after (login username password) w)
     = Some username /\
     user_role (world_after (login username password) w) = Some "admin" /\
     is_logged_in (world_after (login username password) w) = true /\
     is_admin (world_after (login username password) w) = true /\
     same_data w (world_after (login username password) w)) /\
    (Dict.get username (admin_credentials w) <> Some password ->
     Dict.get username (user_credentials w) = Some password ->
     login username password w
     = (Returned "User login successful",
        set_session (Some username) (Some "user") w) /\
     logged_in_user (world_after (login username password) w)
     = Some username /\
     user_role (world_after (login username password) w) = Some "user" /\
     is_logged_in (world_after (login username password) w) = true /\
     is_admin (world_after (login username password) w) = false /\
     same_data w (world_after (login username password) w)) /\
    (Dict.get username (admin_credentials w) <> Some password ->
     Dict.get username (user_credentials w) <> Some password ->
     login username password w = (Returned "Invalid credentials", w)).
Proof.
  intros w username password. unfold world_after, login. split; [|split].
  - intros Ha. apply credential_matches_iff in Ha. rewrite Ha.
    cbn [snd]. unfold is_logged_in, is_admin, same_data. cbn.
    split; [reflexivity|]. split; [reflexivity|]. split; [reflexivity|].
    split; [reflexivity|]. split; [reflexivity|].
    split; [|split; [|split; [|split; [|split]]]]; reflexivity.
  - intros Ha Hu. apply credential_matches_false in Ha.
    apply credential_matches_iff in Hu. rewrite Ha, Hu.
    cbn [snd]. unfold is_logged_in, is_admin, same_data. cbn.
    split; [reflexivity|]. split; [reflexivity|]. split; [reflexivity|].
    split; [reflexivity|]. split; [reflexivity|].
    split; [|split; [|split; [|split; [|split]]]]; reflexivity.
  - intros Ha Hu. apply credential_matches_false in Ha, Hu.
    rewrite Ha, Hu. reflexivity.
Qed.

Lemma login_admin_table_first_witness :
  (login "root" "a" shared_name_world
   = (Returned "Admin login successful",
      set_session (Some "root") (Some "admin") shared_name_world) /\
   logged_in_user (world_after (login "root" "a") shared_name_world)
   = Some "root" /\
   user_role (world_after (login "root" "a") shared_name_world)
   = Some "admin") /\
  (login "root" "u" shared_name_world
   = (Returned "User login successful",
      set_session (Some "root") (Some "user") shared_name_world) /\
   logged_in_user (world_after (login "root" "u") shared_name_world)
   = Some "root" /\
   user_role (world_after (login "root" "u") shared_name_world)
   = Some "user") /\
  login "root" "x" shared_name_world
  = (Returned "Invalid credentials", shared_name_world).
Proof.
  destruct (login_admin_table_first shared_name_world "root" "a")
    as (Hadmin & _ & _).
  destruct (login_admin_table_first shared_name_world "root" "u")
    as (_ & Huser & _).
  destruct (login_admin_table_first shared_name_world "root" "x")
    as (_ & _ & Hnone).
  split; [|split].
  - destruct (Hadmin eq_refl) as (E & Hu & Hr & _).
    split; [exact E | split; [exact Hu | exact Hr]].
  - assert (Hne : Dict.get "root" (admin_credentials shared_name_world)
                  <> Some "u") by discriminate.
    destruct (Huser Hne eq_refl) as (E & Hu & Hr & _).
    split; [exact E | split; [exact Hu | exact Hr]].
  - apply Hnone; discriminate.
Defined.

(** C10. A login whose pair is in neither table changes nothing: the
    principal and the role of the running session stay; conversely a
    login that changes the session had its pair in one of the tables. *)
Theorem failed_login_keeps_session :
  forall w username password,
    (Dict.get username (admin_credentials w) <> Some password ->
     Dict.get username (user_credentials w) <> Some password ->
     world_after (login username password) w = w) /\
    ((logged_in_user (world_after (login username password) w)
      <> logged_in_user w \/
      user_role (world_after (login username password) w) <> user_role w) ->
     Dict.get username (admin_credentials w) = Some password \/
     Dict.get username (user_credentials w) = Some password).
Proof.
  intros w username password. unfold world_after, login.
  destruct (credential_matches (admin_credentials w) username password) eqn:Ea.
  - apply credential_matches_iff in Ea. split; [contradiction | auto].
  - destruct (credential_matches (user_credentials w) username password) eqn:Eu.
    + apply credential_matches_iff in Eu. split; [contradiction | auto].
    + simpl. split; [reflexivity | intros [H | H]; congruence].
Qed.

Lemma failed_login_keeps_session_witness :
  world_after (login "user" "wrong") widget_shop = widget_shop /\
  logged_in_user (world_after (login "user" "wrong") widget_shop) = Some "user".
Proof.
  destruct (failed_login_keeps_session widget_shop "user" "wrong") as [H _].
  assert (E : world_after (login "user" "wrong") widget_shop = widget_shop).
  { apply H; vm_compute; discriminate. }
  split; [exact E | rewrite E; reflexivity].
Defined.

(** ** C8: the session guards *)

(** C8. Without a session every operation returns its "Please login ..."
    message and leaves the state as it was; with a session whose role is
    not admin, [add_product], [update_product] and [delete_product] return
    "Admin access required" and leave the state as it was. *)
Theorem guards_reject :
  forall w,
    (logged_in_user w = None ->
     (forall now n p c s,
         add_product now n p c s w
         = (Returned "Please login to perform this action", w)) /\
     (forall now n p c s,
         update_product now n p c s w
         = (Returned "Please login to perform this action", w)) /\
     (forall now n,
         delete_product now n w
         = (Returned "Please login to perform this action", w)) /\
     view_inventory w
     = (Returned (Text "Please login to view the inventory"), w) /\
     (forall category,
         search_products_by_category category w
         = (Returned (Text "Please login to search products"), w)) /\
     (forall threshold,
         low_stock_alerts threshold w
         = (Returned (Text "Please login to view low stock alerts"), w)) /\
     (forall np_argsort by_ order,
         sort_inventory np_argsort by_ order w
         = (Returned (Text "Please login to sort the inventory"), w)) /\
     (forall now n q,
         sale_product now n q w
         = (Returned "Please login to perform this action", w)) /\
     view_transactions w
     = (Returned (Text "Please login to view transactions"), w) /\
     (forall n periods,
         predict_sales n periods w
         = (Returned "Please login to perform this action", w))) /\
    (forall u,
        logged_in_user w = Some u ->
        user_role w <> Some "admin" ->
        (forall now n p c s,
            add_product now n p c s w = (Returned "Admin access required", w)) /\
        (forall now n p c s,
            update_product now n p c s w
            = (Returned "Admin access required", w)) /\
        (forall now n,
            delete_product now n w = (Returned "Admin access required", w))).
Proof.
  intros w. split.
  - intros H. apply is_logged_in_None in H.
    unfold add_product, update_product, delete_product, view_inventory,
      search_products_by_category, low_stock_alerts, sort_inventory,
      sale_product, view_transactions, predict_sales.
    rewrite H. simpl. tauto.
  - intros u Hu Hr. apply is_logged_in_Some in Hu. apply is_admin_false in Hr.
    unfold add_product, update_product, delete_product.
    rewrite Hu, Hr. simpl. tauto.
Qed.

Lemma guards_reject_witness :
  sale_product noon "Widget" 1 initial_world
  = (Returned "Please login to perform this action", initial_world) /\
  view_inventory initial_world
  = (Returned (Text "Please login to view the inventory"), initial_world) /\
  delete_product noon "Widget" widget_shop
  = (Returned "Admin access required", widget_shop).
Proof.
  destruct (guards_reject initial_world) as [Hnone _].
  destruct (Hnone eq_refl) as (_ & _ & _ & Hview & _ & _ & _ & Hsale & _).
  destruct (guards_reject widget_shop) as [_ Huser].
  assert (Hrole : user_role widget_shop <> Some "admin")
    by (vm_compute; discriminate).
  destruct (Huser "user" eq_refl Hrole) as (_ & _ & Hdel).
  split; [apply Hsale | split; [exact Hview | apply Hdel]].
Defined.

(** ** What an accepted mutation does *)

(** Past its guards, each mutation changes the inventory and then stops
    at the call of the undefined [save_inventory]. *)
Lemma add_product_accepted now w u name price category stock :
  logged_in_user w = Some u ->
  user_role w = Some "admin" ->
  Dict.get name (inventory w) = None ->
  add_product now name price category stock w
  = (Raised (NameError "save_inventory"),
     set_inventory
       (Dict.set name (mkProduct price category stock) (inventory w)) w).
Proof.
  intros Hu Hr Hg. unfold add_product.
  rewrite (is_logged_in_Some _ _ Hu), (is_admin_true _ Hr),
    (mem_get_None _ _ Hg).
  reflexivity.
Qed.

Lemma add_product_duplicate now w u name price category stock p :
  logged_in_user w = Some u ->
  user_role w = Some "admin" ->
  Dict.get name (inventory w) = Some p ->
  add_product now name price category stock w
  = (Returned "Product already exists", w).
Proof.
  intros Hu Hr Hg. unfold add_product.
  rewrite (is_logged_in_Some _ _ Hu), (is_admin_true _ Hr),
    (mem_get_Some _ _ _ Hg).
  reflexivity.
Qed.

Lemma update_product_accepted now w u name price category stock p :
  logged_in_user w = Some u ->
  user_role w = Some "admin" ->
  Dict.get name (inventory w) = Some p ->
  update_product now name price category stock w
  = (Raised (NameError "save_inventory"),
     set_inventory
       (Dict.set name (mkProduct price category stock) (inventory w)) w).
Proof.
  intros Hu Hr Hg. unfold update_product.
  rewrite (is_logged_in_Some _ _ Hu), (is_admin_true _ Hr),
    (mem_get_Some _ _ _ Hg).
  reflexivity.
Qed.

Lemma delete_product_accepted now w u name p :
  logged_in_user w = Some u ->
  user_role w = Some "admin" ->
  Dict.get name (inventory w) = Some p ->
  delete_product now name w
  = (Raised (NameError "save_inventory"),
     set_inventory (Dict.del name (inventory w)) w).
Proof.
  intros Hu Hr Hg. unfold delete_product.
  rewrite (is_logged_in_Some _ _ Hu), (is_admin_true _ Hr),
    (mem_get_Some _ _ _ Hg).
  reflexivity.
Qed.

Lemma sale_product_accepted now w u name quantity p :
  logged_in_user w = Some u ->
  Dict.get name (inventory w) = Some p ->
  quantity <= Stock p ->
  sale_product now name quantity w
  = (Raised (NameError "save_inventory"),
     set_inventory
       (Dict.set name (mkProduct (Price p) (Category p) (Stock p - quantity))
                 (inventory w)) w).
Proof.
  intros Hu Hg Hq. unfold sale_product.
  rewrite (is_logged_in_Some _ _ Hu), (mem_get_Some _ _ _ Hg). simpl.
  unfold stock_of. rewrite Hg.
  destruct (Z.ltb_spec (Stock p) quantity) as [Hlt | _]; [lia|].
  unfold bind, modify, save_inventory, raise, decrement_stock. simpl.
  rewrite Hg. reflexivity.
Qed.

(** [log_transaction] itself numbers the entry it appends with the length
    of the log plus one, and then stops at [save_transactions]. *)
Lemma log_transaction_appends now action name quantity w :
  log_transaction now action name quantity w
  = (Raised (NameError "save_transactions"),
     set_transactions
       (transactions w ++
        [mkTransaction (Z.of_nat (List.length (transactions w)) + 1) action
                       name quantity (logged_in_user w) now])%list w).
Proof. reflexivity. Qed.

(** No call of the interface reaches [log_transaction] or the append to
    the sales ledger. *)
Lemma run_call_transactions c w :
  transactions (run_call c w) = transactions w.
Proof.
  destruct c; unfold run_call, world_after; simpl.
  - unfold login.
    destruct (credential_matches _ _ _); [reflexivity|].
    destruct (credential_matches _ _ _); reflexivity.
  - reflexivity.
  - unfold add_product.
    destruct (is_logged_in w), (is_admin w), (Dict.mem _ _); reflexivity.
  - unfold update_product.
    destruct (is_logged_in w), (is_admin w), (Dict.mem _ _); reflexivity.
  - unfold delete_product.
    destruct (is_logged_in w), (is_admin w), (Dict.mem _ _); reflexivity.
  - unfold sale_product.
    destruct (is_logged_in w), (Dict.mem _ _), (Z.ltb _ _); reflexivity.
Qed.

Lemma run_call_sales c w : sales (run_call c w) = sales w.
Proof.
  destruct c; unfold run_call, world_after; simpl.
  - unfold login.
    destruct (credential_matches _ _ _); [reflexivity|].
    destruct (credential_matches _ _ _); reflexivity.
  - reflexivity.
  - unfold add_product.
    destruct (is_logged_in w), (is_admin w), (Dict.mem _ _); reflexivity.
  - unfold update_product.
    destruct (is_logged_in w), (is_admin w), (Dict.mem _ _); reflexivity.
  - unfold delete_product.
    destruct (is_logged_in w), (is_admin w), (Dict.mem _ _); reflexivity.
  - unfold sale_product.
    destruct (is_logged_in w), (Dict.mem _ _), (Z.ltb _ _); reflexivity.
Qed.

Lemma reachable_logs_empty w :
  reachable w -> transactions w = [] /\ sales w = [].
Proof.
  intros [cs ->]. unfold run_calls.
  assert (G : forall w0, transactions (fold_left (fun w c => run_call c w) cs w0)
                           = transactions w0 /\
                         sales (fold_left (fun w c => run_call c w) cs w0)
                           = sales w0).
  { induction cs as [|c cs IH]; intros w0; simpl; [split; reflexivity|].
    destruct (IH (run_call c w0)) as [Ht Hs].
    rewrite Ht, Hs, run_call_transactions, run_call_sales. split; reflexivity. }
  destruct (G initial_world) as [Ht Hs]. rewrite Ht, Hs. split; reflexivity.
Qed.

(** The numbering of [log_transaction] keeps the ids dense and touches no
    earlier entry; the states the interface reaches have an empty log, of
    which this holds trivially. *)
Lemma log_transaction_ids_dense now action name quantity w :
  ids_dense (transactions w) ->
  let w' := world_after (log_transaction now action name quantity) w in
  ids_dense (transactions w') /\
  firstn (List.length (transactions w)) (transactions w') = transactions w /\
  List.length (transactions w') = S (List.length (transactions w)).
Proof.
  intros H w'. subst w'. unfold world_after.
  rewrite log_transaction_appends. simpl.
  split; [|split].
  - unfold ids_dense in *.
    rewrite map_app, length_app, H. simpl.
    rewrite Nat.add_1_r, seq_S, map_app. reflexivity.
  - rewrite firstn_app, Nat.sub_diag, firstn_all. simpl.
    apply app_nil_r.
  - rewrite length_app. simpl. lia.
Qed.

Lemma reachable_ids_dense w : reachable w -> ids_dense (transactions w).
Proof.
  intros H. destruct (reachable_logs_empty w H) as [-> _]. reflexivity.
Qed.

(** ** C2, C3, C5: accepted sales and mutations on the scenario *)

(** C2. On the scenario of the specification (a Widget with stock 50, a
    plain user logged in), [sale_product("Widget", 10)] brings the stock
    to 40, leaves the log alone, and then raises [NameError] at
    [save_inventory()]: the sales ledger keeps its length, 0, where the
    claim has it grow by one. *)
Theorem accepted_sale_is_not_recorded :
  Dict.get "Widget" (inventory widget_shop) = Some widget /\
  sale_product noon "Widget" 10 widget_shop
  = (Raised (NameError "save_inventory"),
     set_inventory [("Widget", mkProduct (999 # 100) "Tools" 40)] widget_shop) /\
  List.length (sales (world_after (sale_product noon "Widget" 10) widget_shop))
  = List.length (sales widget_shop) /\
  transactions (world_after (sale_product noon "Widget" 10) widget_shop)
  = transactions widget_shop.
Proof. repeat split. Qed.

(** C3. In an admin session on the empty store, [add_product], then
    [update_product], then [delete_product] each pass their guards, change
    the inventory and raise [NameError] at [save_inventory()]; none of
    them reaches [log_transaction], and the log is as empty after the
    three as before, where the claim has it grow by one each time. *)
Theorem accepted_mutations_write_no_audit_entry :
  forall w1 w2 w3,
    w1 = world_after (add_product noon "Widget" (999 # 100) "Tools" 50)
                     admin_session ->
    w2 = world_after (update_product noon "Widget" (5 # 1) "Tools" 60) w1 ->
    w3 = world_after (delete_product noon "Widget") w2 ->
    (fst (add_product noon "Widget" (999 # 100) "Tools" 50 admin_session)
     = Raised (NameError "save_inventory") /\
     inventory w1 = [("Widget", widget)] /\ transactions w1 = []) /\
    (fst (update_product noon "Widget" (5 # 1) "Tools" 60 w1)
     = Raised (NameError "save_inventory") /\
     inventory w2 = [("Widget", mkProduct (5 # 1) "Tools" 60)] /\
     transactions w2 = []) /\
    (fst (delete_product noon "Widget" w2)
     = Raised (NameError "save_inventory") /\
     inventory w3 = [] /\ transactions w3 = []).
Proof. intros w1 w2 w3 -> -> ->. repeat split. Qed.

Lemma accepted_mutations_write_no_audit_entry_witness :
  transactions
    (world_after (delete_product noon "Widget")
       (world_after (update_product noon "Widget" (5 # 1) "Tools" 60)
          (world_after (add_product noon "Widget" (999 # 100) "Tools" 50)
             admin_session))) = [].
Proof.
  apply (accepted_mutations_write_no_audit_entry _ _ _ eq_refl eq_refl eq_refl).
Defined.

(** C5. In an admin session, [add_product] of a new name puts the product
    in the inventory with the fields given, and a [view_inventory] right
    after shows it; a second [add_product] of the name is refused with
    "Product already exists" and changes nothing.  The first call however
    ends in [NameError] at [save_inventory()], before [log_transaction]:
    no entry with action Add is appended, where the claim has one. *)
Theorem add_product_inserts_without_audit_entry :
  forall w1,
    w1 = set_inventory [("Widget", widget)] admin_session ->
    add_product noon "Widget" (999 # 100) "Tools" 50 admin_session
    = (Raised (NameError "save_inventory"), w1) /\
    transactions w1 = transactions admin_session /\
    view_inventory w1 = (Returned (Data [("Widget", widget)]), w1) /\
    add_product noon "Widget" (1 # 1) "Toys" 7 w1
    = (Returned "Product already exists", w1).
Proof. intros w1 ->. repeat split. Qed.

Lemma add_product_inserts_without_audit_entry_witness :
  transactions
    (world_after (add_product noon "Widget" (999 # 100) "Tools" 50)
                 admin_session) = [].
Proof.
  destruct (add_product_inserts_without_audit_entry _ eq_refl) as (E & T & _).
  unfold world_after. rewrite E. exact T.
Defined.

(** What does hold of [add_product], on every state: the product is in
    the inventory afterwards with the fields given, and the next
    [view_inventory] lists it. *)
Lemma get_set_same {V} k (v : V) d : Dict.get k (Dict.set k v d) = Some v.
Proof.
  induction d as [|[k' v'] d IH]; simpl.
  - rewrite String.eqb_refl. reflexivity.
  - destruct (String.eqb k k') eqn:E; simpl.
    + rewrite String.eqb_refl. reflexivity.
    + rewrite E. exact IH.
Qed.

Lemma get_set_other {V} k k' (v : V) d :
  k' <> k -> Dict.get k' (Dict.set k v d) = Dict.get k' d.
Proof.
  intros Hne. induction d as [|[k0 v0] d IH]; simpl.
  - destruct (String.eqb_spec k' k); [contradiction | reflexivity].
  - destruct (String.eqb_spec k k0); simpl.
    + subst k0. destruct (String.eqb_spec k' k); [contradiction | reflexivity].
    + rewrite IH. reflexivity.
Qed.

Lemma set_new_appends {V} k (v : V) d :
  Dict.get k d = None -> Dict.set k v d = (d ++ [(k, v)])%list.
Proof.
  induction d as [|[k' v'] d IH]; simpl; [reflexivity|].
  destruct (String.eqb k k'); [discriminate|].
  intros H. rewrite (IH H). reflexivity.
Qed.

Lemma add_product_then_view now w u name price category stock :
  logged_in_user w = Some u ->
  user_role w = Some "admin" ->
  Dict.get name (inventory w) = None ->
  let w' := world_after (add_product now name price category stock) w in
  view_inventory w'
  = (Returned (Data (inventory w ++ [(name, mkProduct price category stock)])%list),
     w') /\
  transactions w' = transactions w.
Proof.
  intros Hu Hr Hg w'. subst w'. unfold world_after.
  rewrite (add_product_accepted now w u name price category stock Hu Hr Hg).
  simpl. unfold view_inventory, is_logged_in. simpl. rewrite Hu. simpl.
  rewrite (set_new_appends _ _ _ Hg). split; [|reflexivity].
  destruct (inventory w); reflexivity.
Qed.

(** ** C4: the sign of the stock *)

Section StockInvariant.
Let ok (kv : string * Product) : Prop := 0 <= Stock (snd kv).

Lemma set_keeps k v (d : Dict.t Product) :
  Forall ok d -> 0 <= Stock v -> Forall ok (Dict.set k v d).
Proof.
  intros Hd Hv. induction Hd as [|[k' v'] d Hk Hd IH]; simpl.
  - constructor; [exact Hv | constructor].
  - destruct (String.eqb k k'); constructor; auto.
Qed.

Lemma del_keeps k (d : Dict.t Product) :
  Forall ok d -> Forall ok (Dict.del k d).
Proof.
  intros Hd. induction Hd as [|[k' v'] d Hk Hd IH]; simpl.
  - constructor.
  - destruct (String.eqb k k'); [exact Hd | constructor; auto].
Qed.

Lemma get_keeps k (d : Dict.t Product) p :
  Forall ok d -> Dict.get k d = Some p -> 0 <= Stock p.
Proof.
  intros Hd. induction Hd as [|[k' v'] d Hk Hd IH]; simpl; [discriminate|].
  destruct (String.eqb k k'); [intros [= <-]; exact Hk | exact IH].
Qed.

Lemma get_mem_true k (d : Dict.t Product) :
  Dict.mem k d = true -> exists p, Dict.get k d = Some p.
Proof.
  unfold Dict.mem. destruct (Dict.get k d) as [p|]; [eauto | discriminate].
Qed.

(** One call keeps the stocks non-negative when the stock it is given
    is; a sale does for any quantity, since it is refused above the
    stock. *)
Lemma run_call_stocks_nonneg c w :
  stocks_nonneg w -> stock_arg_nonneg c -> stocks_nonneg (run_call c w).
Proof.
  unfold stocks_nonneg. fold ok. intros Hw Hc.
  destruct c; unfold run_call, world_after; simpl in *.
  - unfold login.
    destruct (credential_matches _ _ _); [exact Hw|].
    destruct (credential_matches _ _ _); exact Hw.
  - exact Hw.
  - unfold add_product.
    destruct (is_logged_in w), (is_admin w), (Dict.mem _ _);
      simpl; try exact Hw.
    apply set_keeps; assumption.
  - unfold update_product.
    destruct (is_logged_in w), (is_admin w), (Dict.mem _ _);
      simpl; try exact Hw.
    apply set_keeps; assumption.
  - unfold delete_product.
    destruct (is_logged_in w), (is_admin w), (Dict.mem _ _);
      simpl; try exact Hw.
    apply del_keeps; assumption.
  - unfold sale_product.
    destruct (is_logged_in w); simpl; [|exact Hw].
    destruct (Dict.mem product_name (inventory w)) eqn:Hm; simpl; [|exact Hw].
    destruct (get_mem_true _ _ Hm) as [p Hp].
    unfold stock_of. rewrite Hp.
    destruct (Z.ltb_spec (Stock p) quantity) as [Hlt | Hge]; simpl;
      [exact Hw|].
    unfold decrement_stock. rewrite Hp.
    apply set_keeps; [exact Hw | simpl].
    pose proof (get_keeps _ _ _ Hw Hp). lia.
Qed.

Lemma run_calls_stocks_nonneg cs w :
  stocks_nonneg w -> Forall stock_arg_nonneg cs ->
  stocks_nonneg (run_calls cs w).
Proof.
  unfold run_calls. revert w.
  induction cs as [|c cs IH]; intros w Hw Hcs; simpl; [exact Hw|].
  inversion Hcs; subst.
  apply IH; [apply run_call_stocks_nonneg|]; assumption.
Qed.
End StockInvariant.

(** C4, as the code has it. In every state reached from the empty
    inventory by logins, logouts, adds, updates, deletes and sales in
    which each add and update is given a stock that is not negative, every
    product has a stock that is not negative; the quantity of a sale is
    unconstrained. *)
Theorem stock_never_negative :
  forall cs,
    Forall stock_arg_nonneg cs ->
    stocks_nonneg (run_calls cs initial_world).
Proof.
  intros cs Hcs. apply run_calls_stocks_nonneg; [|exact Hcs].
  constructor.
Qed.

Lemma stock_never_negative_witness :
  stocks_nonneg
    (run_calls [Login "harsh" "harsh";
                AddProduct noon "Widget" (999 # 100) "Tools" 50;
                Login "user" "user";
                SaleProduct noon "Widget" 10;
                SaleProduct noon "Widget" (-3)] initial_world).
Proof.
  apply (stock_never_negative
           [Login "harsh" "harsh";
            AddProduct noon "Widget" (999 # 100) "Tools" 50;
            Login "user" "user";
            SaleProduct noon "Widget" 10;
            SaleProduct noon "Widget" (-3)]).
  repeat constructor; simpl; lia.
Defined.

(** C4 as stated fails: nothing checks the stock given to [add_product],
    so an admin who adds a product with stock -5 reaches a state with a
    negative stock. *)
Lemma stock_can_be_negative :
  ~ (forall w, reachable w -> stocks_nonneg w).
Proof.
  intros H.
  assert (R : reachable
                (run_calls [Login "harsh" "harsh";
                            AddProduct noon "Widget" (999 # 100) "Tools" (-5)]
                           initial_world))
    by (eexists; reflexivity).
  apply H in R. unfold stocks_nonneg in R. simpl in R.
  inversion R as [|kv l Hk Hl]; subst. simpl in Hk. lia.
Qed.

(** ** C7: a forecast without sales history *)

Lemma no_sales_filter name w :
  no_sales_of name w ->
  filter (fun s => String.eqb (s_product s) name) (sales w) = [].
Proof.
  unfold no_sales_of. induction (sales w) as [|s l IH]; intros H; simpl.
  - reflexivity.
  - destruct (String.eqb_spec (s_product s) name) as [E | _].
    + exfalso. apply (H s); [left; reflexivity | exact E].
    + apply IH. intros s' Hs'. apply H. right. exact Hs'.
Qed.

(** C7, as the code has it. For a logged-in session and a product without
    entry in the sales ledger, [predict_sales] has no guard of its own: the
    empty table goes to the regression, whose fit refuses it with
    [ValueError]; [predict_sales] does not catch it, and the state is what
    it was. *)
Theorem predict_sales_without_history :
  forall w u name periods,
    logged_in_user w = Some u ->
    no_sales_of name w ->
    predict_sales name periods w
    = (Raised (ValueError
         "Found array with 0 sample(s) (shape=(0, 1)) while a minimum of 1 is required by LinearRegression."),
       w).
Proof.
  intros w u name periods Hu Hs. unfold predict_sales.
  rewrite (is_logged_in_Some _ _ Hu), (no_sales_filter _ _ Hs).
  reflexivity.
Qed.

Lemma predict_sales_without_history_witness :
  fst (predict_sales "Widget" 12 widget_shop)
  = Raised (ValueError
      "Found array with 0 sample(s) (shape=(0, 1)) while a minimum of 1 is required by LinearRegression.").
Proof.
  rewrite (predict_sales_without_history widget_shop "user" "Widget" 12 eq_refl).
  - reflexivity.
  - intros s Hs. destruct Hs.
Defined.

(** C7 as stated fails: in the scenario, where nothing was sold yet, the
    forecast of "Widget" returns no message at all; it raises. *)
Lemma predict_sales_returns_no_typed_failure :
  ~ (forall w u name periods,
        logged_in_user w = Some u ->
        no_sales_of name w ->
        exists msg, fst (predict_sales name periods w) = Returned msg).
Proof.
  intros H.
  destruct (H widget_shop "user" "Widget" 12 eq_refl) as [msg Hmsg].
  - intros s Hs. destruct Hs.
  - vm_compute in Hmsg. discriminate.
Qed.

(** ** C6: sorting the inventory *)

Section Take.
Context {A : Type}.
Implicit Types (l : list A) (idx : list nat).

Lemma take_cons l i idx :
  take l (i :: idx)
  = ((match nth_error l i with Some x => [x] | None => [] end)
     ++ take l idx)%list.
Proof. reflexivity. Qed.

Lemma take_app l idx1 idx2 :
  take l (idx1 ++ idx2) = (take l idx1 ++ take l idx2)%list.
Proof. apply flat_map_app. Qed.

Lemma take_rev l idx : take l (rev idx) = rev (take l idx).
Proof.
  induction idx as [|i idx IH]; [reflexivity|].
  simpl rev. rewrite take_app, IH, take_cons, rev_app_distr.
  f_equal. simpl. destruct (nth_error l i); reflexivity.
Qed.

Lemma take_seq_from pre l :
  take (pre ++ l) (seq (List.length pre) (List.length l)) = l.
Proof.
  revert pre. induction l as [|a l IH]; intros pre; [reflexivity|].
  simpl seq. rewrite take_cons.
  rewrite nth_error_app2 by lia. rewrite Nat.sub_diag. simpl.
  f_equal.
  replace (pre ++ a :: l)%list with ((pre ++ [a]) ++ l)%list
    by (rewrite <- app_assoc; reflexivity).
  replace (S (List.length pre)) with (List.length (pre ++ [a])%list)
    by (rewrite length_app; simpl; lia).
  apply IH.
Qed.

Lemma take_seq_all l : take l (seq 0 (List.length l)) = l.
Proof. apply (take_seq_from [] l). Qed.

Lemma take_perm l idx :
  Permutation idx (seq 0 (List.length l)) -> Permutation (take l idx) l.
Proof.
  intros H. unfold take.
  rewrite H. fold (take l (seq 0 (List.length l))).
  rewrite take_seq_all. apply Permutation_refl.
Qed.
End Take.

Lemma take_map {A B} (f : A -> B) (l : list A) idx :
  map f (take l idx) = take (map f l) idx.
Proof.
  induction idx as [|i idx IH]; [reflexivity|].
  rewrite !take_cons, map_app, IH, nth_error_map.
  destruct (nth_error l i); reflexivity.
Qed.

Lemma perm_seq_in_range idx n :
  Permutation idx (seq 0 n) -> Forall (fun i => (i < n)%nat) idx.
Proof.
  intros H. apply Forall_forall. intros i Hi.
  apply (Permutation_in _ H) in Hi. apply in_seq in Hi. lia.
Qed.

Lemma take_range_id idx n :
  Forall (fun i => (i < n)%nat) idx -> take (seq 0 n) idx = idx.
Proof.
  induction 1 as [|i idx Hi _ IH]; [reflexivity|].
  rewrite take_cons, IH, nth_error_seq.
  destruct (Nat.ltb_spec i n); [reflexivity | lia].
Qed.

(** Indexing through the reversed index array is indexing the reversed
    list. *)
Lemma take_rev_seq {A} (l : list A) idx :
  Forall (fun i => (i < List.length l)%nat) idx ->
  take l (take (rev (seq 0 (List.length l))) idx) = take (rev l) idx.
Proof.
  induction 1 as [|i idx Hi _ IH]; [reflexivity|].
  rewrite !take_cons, take_app, IH. f_equal.
  rewrite !nth_error_rev, length_seq.
  destruct (Nat.ltb_spec i (List.length l)) as [_ | Hge]; [|lia].
  rewrite nth_error_seq.
  destruct (Nat.ltb_spec (List.length l - S i) (List.length l)) as [_ | Hge];
    [|lia].
  simpl. rewrite app_nil_r. reflexivity.
Qed.

(** What [sort_values] returns when numpy's [argsort] keeps its contract
    on the array it is handed. *)
Lemma sort_values_ascending np_argsort c df :
  argsort_spec (map (cell c) df) (np_argsort (map (cell c) df)) ->
  Permutation (sort_values np_argsort c true df) df /\
  sorted cell_leb (map (cell c) (sort_values np_argsort c true df)) = true.
Proof.
  intros [Hperm Hsorted]. unfold sort_values, nargsort, argsort_input.
  rewrite length_map in *.
  rewrite (take_range_id _ _ (perm_seq_in_range _ _ Hperm)).
  split.
  - apply take_perm. exact Hperm.
  - rewrite take_map. exact Hsorted.
Qed.

Lemma sort_values_descending np_argsort c df :
  argsort_spec (rev (map (cell c) df)) (np_argsort (rev (map (cell c) df))) ->
  Permutation (sort_values np_argsort c false df) df /\
  sorted cell_leb (rev (map (cell c) (sort_values np_argsort c false df)))
  = true.
Proof.
  intros [Hperm Hsorted]. unfold sort_values, nargsort, argsort_input.
  rewrite length_rev, length_map in Hperm. rewrite length_map.
  pose proof (perm_seq_in_range _ _ Hperm) as Hrange.
  rewrite take_rev, take_rev_seq by exact Hrange.
  split.
  - apply Permutation_trans with (rev df);
      [|apply Permutation_sym, Permutation_rev].
    apply Permutation_trans with (take (rev df) (np_argsort (rev (map (cell c) df))));
      [apply Permutation_sym, Permutation_rev|].
    apply take_perm. rewrite length_rev. exact Hperm.
  - rewrite map_rev, rev_involutive, take_map, map_rev. exact Hsorted.
Qed.

Lemma sorted_map {A B} (le : B -> B -> bool) (f : A -> B) (l : list A) :
  sorted le (map f l) = sorted (fun a b => le (f a) (f b)) l.
Proof.
  induction l as [|a l IH]; [reflexivity|].
  destruct l as [|b l]; [reflexivity|].
  change (le (f a) (f b) && sorted le (map f (b :: l))
          = le (f a) (f b) && sorted (fun a b => le (f a) (f b)) (b :: l)).
  rewrite IH. reflexivity.
Qed.

(** The key of a row under a column is the field the column is named
    after, and keys compare as the fields do. *)
Lemma sorted_by_field {K} (c : Column) (key : Row -> K)
    (le : K -> K -> bool) (order : string) (rows : list Row) :
  (forall a b, cell_leb (cell c a) (cell c b) = le (key a) (key b)) ->
  sorted cell_leb
    (if String.eqb order "asc" then map (cell c) rows
     else rev (map (cell c) rows)) = true ->
  sorted le (in_order order (map key rows)) = true.
Proof.
  intros Hle. unfold in_order.
  destruct (String.eqb order "asc").
  - rewrite !sorted_map. intros H. rewrite <- H. clear H.
    induction rows as [|a l IH]; [reflexivity|].
    destruct l as [|b l]; [reflexivity|].
    change (le (key a) (key b)
            && sorted (fun a b => le (key a) (key b)) (b :: l)
            = cell_leb (cell c a) (cell c b)
              && sorted (fun a b => cell_leb (cell c a) (cell c b)) (b :: l)).
    rewrite IH, Hle. reflexivity.
  - rewrite <- !map_rev, !sorted_map. intros H. rewrite <- H. clear H.
    induction (rev rows) as [|a l IH]; [reflexivity|].
    destruct l as [|b l]; [reflexivity|].
    change (le (key a) (key b)
            && sorted (fun a b => le (key a) (key b)) (b :: l)
            = cell_leb (cell c a) (cell c b)
              && sorted (fun a b => cell_leb (cell c a) (cell c b)) (b :: l)).
    rewrite IH, Hle. reflexivity.
Qed.

(** C6, as the code has it. For a logged-in session on a non-empty
    inventory, a column name among 'Product Name', 'Price', 'Category',
    'Stock' and any order, if numpy's [argsort] returns indices that sort
    the array it is handed, [sort_inventory] returns the products of the
    inventory, each once, and changes no state; read in the order asked
    for, the names are non-decreasing for 'Product Name', the prices for
    'Price', the categories for 'Category' and the stocks for 'Stock'.
    Nothing is said of the order among products with equal keys. *)
Theorem sort_inventory_sorts :
  forall np_argsort w u by_ order c,
    logged_in_user w = Some u ->
    inventory w <> [] ->
    column_of_name by_ = Some c ->
    argsort_spec
      (argsort_input (map (cell c) (inventory w)) (String.eqb order "asc"))
      (np_argsort
         (argsort_input (map (cell c) (inventory w)) (String.eqb order "asc"))) ->
    exists rows,
      sort_inventory np_argsort by_ order w = (Returned (Data rows), w) /\
      Permutation rows (inventory w) /\
      sorted cell_leb
        (if String.eqb order "asc" then map (cell c) rows
         else rev (map (cell c) rows)) = true /\
      (by_ = "Product Name" ->
       sorted String.leb (in_order order (map (fun r : Row => fst r) rows))
       = true) /\
      (by_ = "Price" ->
       sorted Qle_bool
         (in_order order (map (fun r : Row => Price (snd r)) rows)) = true) /\
      (by_ = "Category" ->
       sorted String.leb
         (in_order order (map (fun r : Row => Category (snd r)) rows)) = true) /\
      (by_ = "Stock" ->
       sorted Z.leb
         (in_order order (map (fun r : Row => Stock (snd r)) rows)) = true).
Proof.
  intros np_argsort w u by_ order c Hu Hne Hc Hspec.
  exists (sort_values np_argsort c (String.eqb order "asc") (inventory w)).
  assert (Hs : Permutation
                 (sort_values np_argsort c (String.eqb order "asc") (inventory w))
                 (inventory w) /\
               sorted cell_leb
                 (if String.eqb order "asc"
                  then map (cell c)
                         (sort_values np_argsort c (String.eqb order "asc")
                            (inventory w))
                  else rev (map (cell c)
                              (sort_values np_argsort c
                                 (String.eqb order "asc") (inventory w))))
               = true).
  { destruct (String.eqb order "asc"); simpl in Hspec.
    - apply sort_values_ascending. exact Hspec.
    - apply sort_values_descending. exact Hspec. }
  destruct Hs as [Hperm Hsorted].
  split.
  { unfold sort_inventory. rewrite (is_logged_in_Some _ _ Hu). simpl.
    unfold bind, frame_of_dict.
    destruct (inventory w) as [|kv d]; [congruence|].
    simpl. rewrite Hc. reflexivity. }
  split; [exact Hperm|]. split; [exact Hsorted|].
  split; [|split; [|split]]; intros ->; injection Hc as <-.
  - apply (sorted_by_field ProductName (fun r : Row => fst r) String.leb);
      [reflexivity | exact Hsorted].
  - apply (sorted_by_field PriceColumn (fun r : Row => Price (snd r)) Qle_bool);
      [reflexivity | exact Hsorted].
  - apply (sorted_by_field CategoryColumn (fun r : Row => Category (snd r))
             String.leb); [reflexivity | exact Hsorted].
  - apply (sorted_by_field StockColumn (fun r : Row => Stock (snd r)) Z.leb);
      [reflexivity | exact Hsorted].
Qed.

(** On the three products of the specification's example numpy's sort is
    an insertion sort, and the rows come out as B, A, C. *)
Lemma sort_inventory_sorts_witness :
  exists rows,
    sort_inventory npy_aquicksort "Stock" "desc" abc_shop
    = (Returned (Data rows), abc_shop) /\
    Permutation rows (inventory abc_shop) /\
    sorted Z.leb (rev (map (fun r : Row => Stock (snd r)) rows)) = true /\
    map fst rows = ["B"; "A"; "C"].
Proof.
  destruct (sort_inventory_sorts npy_aquicksort abc_shop "harsh" "Stock" "desc"
              StockColumn) as (rows & E & Hperm & _ & _ & _ & _ & Hstock).
  - reflexivity.
  - discriminate.
  - reflexivity.
  - split.
    + change (Permutation [0; 2; 1]%nat [0; 1; 2]%nat).
      apply perm_skip, perm_swap.
    + reflexivity.
  - exists rows. split; [exact E|]. split; [exact Hperm|].
    split; [apply Hstock; reflexivity|].
    assert (E' : sort_inventory npy_aquicksort "Stock" "desc" abc_shop
                 = (Returned (Data [("B", mkProduct (1 # 1) "x" 20);
                                    ("A", mkProduct (1 # 1) "x" 5);
                                    ("C", mkProduct (1 # 1) "x" 5)]),
                    abc_shop)) by reflexivity.
    rewrite E' in E. injection E as <-. reflexivity.
Defined.

(** C6 as stated fails: [sort_values] is called with the default kind,
    numpy's quicksort, which partitions a column of more than 17 rows and
    swaps equal keys while it does.  Eighteen products of one category,
    sorted by 'Category', come out as P01, P16, P15, ..., P02, P17, P18:
    P16 comes before P15, which was inserted first. *)
Lemma sort_inventory_not_stable :
  exists rows,
    sort_inventory npy_aquicksort "Category" "asc" tool_shop
    = (Returned (Data rows), tool_shop) /\
    map fst rows
    = ["P01"; "P16"; "P15"; "P14"; "P13"; "P12"; "P11"; "P10"; "P09";
       "P08"; "P07"; "P06"; "P05"; "P04"; "P03"; "P02"; "P17"; "P18"] /\
    ~ ties_keep_insertion_order CategoryColumn (inventory tool_shop) rows.
Proof.
  exists (map (fun n => (n, mkProduct (1 # 1) "Tools" 1))
              ["P01"; "P16"; "P15"; "P14"; "P13"; "P12"; "P11"; "P10"; "P09";
               "P08"; "P07"; "P06"; "P05"; "P04"; "P03"; "P02"; "P17"; "P18"]).
  split; [vm_compute; reflexivity|]. split; [reflexivity|].
  intros H.
  specialize (H 1%nat 2%nat
                ("P16", mkProduct (1 # 1) "Tools" 1)
                ("P15", mkProduct (1 # 1) "Tools" 1) 15%nat 14%nat).
  assert (15 < 14)%nat; [|lia].
  apply H; try reflexivity. lia.
Qed.

Lemma map_fst_combine {A B} (l : list A) (l' : list B) :
  List.length l = List.length l' -> map fst (combine l l') = l.
Proof.
  revert l'. induction l as [|x l IH]; intros [|y l'] H; simpl in *;
    try discriminate; [reflexivity|].
  f_equal. apply IH. congruence.
Qed.

Lemma enumerate_nth_from {A} (pre a : list A) :
  Forall (fun y => nth_error (pre ++ a) (fst y) = Some (snd y))
         (combine (seq (List.length pre) (List.length a)) a).
Proof.
  revert pre. induction a as [|x a IH]; intros pre; simpl; constructor.
  - simpl. rewrite nth_error_app2 by lia. rewrite Nat.sub_diag. reflexivity.
  - specialize (IH (pre ++ [x])%list).
    rewrite length_app, <- app_assoc in IH. simpl in IH.
    rewrite Nat.add_1_r in IH. exact IH.
Qed.

Lemma enumerate_nth {A} (a : list A) :
  Forall (fun y => nth_error a (fst y) = Some (snd y))
         (combine (seq 0 (List.length a)) a).
Proof. apply (enumerate_nth_from [] a). Qed.

(** The stable insertion sort keeps numpy's contract on every column of
    every frame. *)
Section InsertionArgsort.
Variable c : Column.

Let from_column (x : Cell) : Prop := exists r : Row, x = cell c r.

Lemma cell_leb_total x y :
  from_column x -> from_column y ->
  cell_leb x y = true \/ cell_leb y x = true.
Proof.
  intros [r1 ->] [r2 ->]. destruct c; simpl.
  - apply String.leb_total.
  - rewrite !Qle_bool_iff.
    destruct (Qlt_le_dec (Price (snd r1)) (Price (snd r2))) as [H | H];
      [left; apply Qlt_le_weak, H | right; exact H].
  - apply String.leb_total.
  - rewrite !Z.leb_le. lia.
Qed.

Lemma sorted_cons (a : Cell) l :
  sorted cell_leb (a :: l) = true <->
  match l with [] => True | b :: _ => cell_leb a b = true end /\
  sorted cell_leb l = true.
Proof.
  destruct l as [|b l]; simpl.
  - tauto.
  - rewrite andb_true_iff. tauto.
Qed.

Section Insert.
(** Either insertion: [before x y] decides whether [x] goes in front
    of [y]. *)
Variable insert : nat * Cell -> list (nat * Cell) -> list (nat * Cell).
Variable before : Cell -> Cell -> bool.
Hypothesis insert_nil : forall x, insert x [] = [x].
Hypothesis insert_cons : forall x y t,
  insert x (y :: t) =
  if before (snd x) (snd y) then x :: y :: t else y :: insert x t.
Hypothesis before_le : forall x y,
  from_column x -> from_column y ->
  before x y = true -> cell_leb x y = true.
Hypothesis not_before_le : forall x y,
  from_column x -> from_column y ->
  before x y = false -> cell_leb y x = true.

Lemma insert_perm x l : Permutation (insert x l) (x :: l).
Proof.
  induction l as [|y t IH].
  - rewrite insert_nil. apply Permutation_refl.
  - rewrite insert_cons. destruct (before (snd x) (snd y)).
    + apply Permutation_refl.
    + apply Permutation_trans with (y :: x :: t);
        [apply perm_skip, IH | apply perm_swap].
Qed.

Lemma insert_sorted x l :
  from_column (snd x) ->
  Forall (fun y => from_column (snd y)) l ->
  sorted cell_leb (map snd l) = true ->
  sorted cell_leb (map snd (insert x l)) = true.
Proof.
  intros Hx Hl. induction Hl as [|y t Hy Ht IH]; intros Hs.
  - rewrite insert_nil. reflexivity.
  - rewrite insert_cons. destruct (before (snd x) (snd y)) eqn:E.
    + simpl map. apply sorted_cons. split; [|exact Hs].
      apply before_le; assumption.
    + simpl map in *. apply sorted_cons in Hs. destruct Hs as [Hhd Hs].
      apply sorted_cons. split; [|apply IH; exact Hs].
      destruct t as [|z t'].
      * rewrite insert_nil. simpl. apply not_before_le; assumption.
      * rewrite insert_cons.
        destruct (before (snd x) (snd z)); simpl;
          [apply not_before_le; assumption | exact Hhd].
Qed.

Lemma insertion_argsort_spec (df : list Row) :
  argsort_spec (map (cell c) df)
    (map fst (fold_right insert []
                (combine (seq 0 (List.length (map (cell c) df)))
                         (map (cell c) df)))).
Proof.
  set (a := map (cell c) df).
  set (ps := combine (seq 0 (List.length a)) a).
  assert (Hperm : Permutation (fold_right insert [] ps) ps).
  { induction ps as [|p ps IH]; simpl; [apply Permutation_refl|].
    apply Permutation_trans with (p :: fold_right insert [] ps);
      [apply insert_perm | apply perm_skip, IH]. }
  assert (Hcol : Forall (fun y => from_column (snd y)) ps).
  { apply Forall_forall. intros [i x] Hin. apply in_combine_r in Hin.
    subst a. apply in_map_iff in Hin. destruct Hin as [r [<- _]].
    exists r. reflexivity. }
  assert (Hnth : Forall (fun y => nth_error a (fst y) = Some (snd y)) ps).
  { apply enumerate_nth. }
  split.
  - apply Permutation_trans with (map fst ps);
      [apply Permutation_map, Hperm|].
    subst ps. rewrite map_fst_combine; [apply Permutation_refl|].
    rewrite length_seq. reflexivity.
  - assert (Hsorted : sorted cell_leb (map snd (fold_right insert [] ps))
                      = true).
    { clear Hperm Hnth. induction Hcol as [|p ps Hp Hps IH];
        simpl; [reflexivity|].
      apply insert_sorted; [exact Hp | | exact IH].
      clear IH. induction Hps as [|q qs Hq Hqs IH]; simpl; [constructor|].
      apply Forall_forall. intros y Hy.
      apply (Permutation_in _ (insert_perm q _)) in Hy.
      destruct Hy as [<- | Hy]; [exact Hq|].
      rewrite Forall_forall in IH. apply IH, Hy. }
    assert (Hnth' : Forall (fun y => nth_error a (fst y) = Some (snd y))
                           (fold_right insert [] ps)).
    { apply Forall_forall. intros y Hy. rewrite Forall_forall in Hnth.
      apply Hnth. apply (Permutation_in _ Hperm), Hy. }
    replace (take a (map fst (fold_right insert [] ps)))
      with (map snd (fold_right insert [] ps)); [exact Hsorted|].
    clear Hperm Hsorted.
    induction Hnth' as [|y l Hy _ IH]; [reflexivity|].
    simpl map. rewrite take_cons, Hy, <- IH. reflexivity.
Qed.
End Insert.

Lemma argsort_stable_spec (df : list Row) :
  argsort_spec (map (cell c) df) (argsort_stable (map (cell c) df)).
Proof.
  apply (insertion_argsort_spec insert_before cell_leb);
    [reflexivity | reflexivity | auto |].
  intros x y Hx Hy H.
  destruct (cell_leb_total x y Hx Hy) as [E | E]; [congruence | exact E].
Qed.

End InsertionArgsort.

(* ================================================================== *)
(** * Further properties of the code *)

(** ** The views *)

(** The views and [export_inventory] never change the state, whatever the
    session and whether they return or raise. *)
Theorem reads_change_nothing :
  forall w,
    snd (view_inventory w) = w /\
    (forall category, snd (search_products_by_category category w) = w) /\
    (forall threshold, snd (low_stock_alerts threshold w) = w) /\
    (forall np_argsort by_ order,
        snd (sort_inventory np_argsort by_ order w) = w) /\
    snd (view_transactions w) = w /\
    snd (export_inventory w) = w.
Proof.
  intros w.
  assert (F : forall d (k : list Row -> M (Reply (list Row))),
             (forall df w0, snd (k df w0) = w0) ->
             snd (bind (frame_of_dict d) k w) = w).
  { intros d k Hk. unfold bind, frame_of_dict.
    destruct d as [|kv d]; simpl; [reflexivity | apply Hk]. }
  unfold view_inventory, search_products_by_category, low_stock_alerts,
    sort_inventory, view_transactions, export_inventory.
  destruct (is_logged_in w); simpl.
  - split; [apply F; reflexivity|].
    split; [intros category; apply F; reflexivity|].
    split; [intros threshold; apply F; reflexivity|].
    split; [|split; reflexivity].
    intros np_argsort by_ order. apply F. intros df w0.
    destruct (column_of_name by_); reflexivity.
  - repeat split.
Qed.

Lemma filter_none {A} (f : A -> bool) (l : list A) :
  (forall x, In x l -> f x = false) -> filter f l = [].
Proof.
  induction l as [|x l IH]; intros H; simpl; [reflexivity|].
  rewrite (H x (or_introl eq_refl)). apply IH.
  intros y Hy. apply H. right. exact Hy.
Qed.

(** A view of an empty table does not return an empty frame: in a
    logged-in session, [view_inventory] and [sort_inventory] on an empty
    inventory, a search (of ASCII text, among ASCII categories) that
    matches no category and a low-stock query that no product meets all
    raise [ValueError] at the assignment of the column names, and change
    nothing. *)
Theorem empty_table_raises :
  forall w u,
    logged_in_user w = Some u ->
    (inventory w = [] ->
     view_inventory w = (Raised length_mismatch, w) /\
     forall np_argsort by_ order,
       sort_inventory np_argsort by_ order w = (Raised length_mismatch, w)) /\
    (forall c,
        c <> EmptyString ->
        is_ascii c = true ->
        categories_ascii w ->
        (forall kv, In kv (inventory w) ->
                    contains (lower c) (lower (Category (snd kv))) = false) ->
        search_products_by_category (Some c) w = (Raised length_mismatch, w)) /\
    (forall threshold,
        (forall kv, In kv (inventory w) -> threshold < Stock (snd kv)) ->
        low_stock_alerts threshold w = (Raised length_mismatch, w)).
Proof.
  intros w u Hu. apply is_logged_in_Some in Hu.
  unfold view_inventory, sort_inventory, search_products_by_category,
    low_stock_alerts.
  rewrite Hu. simpl. split; [|split].
  - intros ->. split; reflexivity.
  - intros c Hc _ _ Hnone. destruct c as [|a c]; [congruence|].
    rewrite filter_none by exact Hnone. reflexivity.
  - intros threshold Hnone. rewrite filter_none; [reflexivity|].
    intros kv Hkv. apply Z.leb_gt. apply Hnone, Hkv.
Qed.

Lemma empty_table_raises_witness :
  view_inventory admin_session = (Raised length_mismatch, admin_session) /\
  search_products_by_category (Some "Toys") widget_shop
  = (Raised length_mismatch, widget_shop) /\
  low_stock_alerts 10 widget_shop = (Raised length_mismatch, widget_shop).
Proof.
  destruct (empty_table_raises admin_session "harsh" eq_refl) as (Hv & _ & _).
  destruct (empty_table_raises widget_shop "user" eq_refl) as (_ & Hs & Hl).
  split; [apply Hv; reflexivity | split].
  - apply Hs; [discriminate | reflexivity | |].
    + intros kv [<- | []]. reflexivity.
    + intros kv [<- | []]. reflexivity.
  - apply Hl. intros kv [<- | []]. simpl. lia.
Defined.

(** A search without category, or with the empty string, is the plain
    view of the inventory. *)
Theorem search_without_category_is_view :
  forall w u,
    logged_in_user w = Some u ->
    search_products_by_category None w = view_inventory w /\
    search_products_by_category (Some EmptyString) w = view_inventory w.
Proof.
  intros w u Hu. apply is_logged_in_Some in Hu.
  unfold search_products_by_category, view_inventory. rewrite Hu.
  split; reflexivity.
Qed.

Lemma search_without_category_is_view_witness :
  search_products_by_category None widget_shop
  = (Returned (Data [("Widget", widget)]), widget_shop).
Proof.
  destruct (search_without_category_is_view widget_shop "user" eq_refl)
    as [E _].
  rewrite E. reflexivity.
Defined.

(** On ASCII text the search ignores the letter case of the query: two
    ASCII queries with the same lower-case form give the same result in
    every state whose categories are ASCII. *)
Theorem search_ignores_case :
  forall w c1 c2,
    is_ascii c1 = true ->
    is_ascii c2 = true ->
    categories_ascii w ->
    lower c1 = lower c2 ->
    search_products_by_category (Some c1) w
    = search_products_by_category (Some c2) w.
Proof.
  intros w c1 c2 _ _ _ H. unfold search_products_by_category.
  destruct (is_logged_in w); simpl; [|reflexivity].
  destruct c1 as [|a1 c1], c2 as [|a2 c2]; try discriminate; [reflexivity|].
  rewrite H. reflexivity.
Qed.

Lemma search_ignores_case_witness :
  search_products_by_category (Some "TOOLS") widget_shop
  = search_products_by_category (Some "tools") widget_shop /\
  search_products_by_category (Some "TOOLS") widget_shop
  = (Returned (Data [("Widget", widget)]), widget_shop).
Proof.
  split.
  - apply (search_ignores_case widget_shop "TOOLS" "tools");
      try reflexivity.
    intros kv [<- | []]. reflexivity.
  - reflexivity.
Defined.

Lemma prefix_refl s : String.prefix s s = true.
Proof.
  induction s as [|a s IH]; simpl; [reflexivity|].
  destruct (ascii_dec a a); [exact IH | congruence].
Qed.

Lemma contains_refl s : contains s s = true.
Proof.
  destruct s as [|a s]; [reflexivity|].
  unfold contains. rewrite prefix_refl. reflexivity.
Qed.

(** Among ASCII categories, a product is found by its own category
    written in any letter case. *)
Theorem search_finds_own_category :
  forall w u name p c,
    logged_in_user w = Some u ->
    In (name, p) (inventory w) ->
    c <> EmptyString ->
    is_ascii c = true ->
    categories_ascii w ->
    lower c = lower (Category p) ->
    exists rows,
      search_products_by_category (Some c) w = (Returned (Data rows), w) /\
      In (name, p) rows.
Proof.
  intros w u name p c Hu Hin Hc _ _ Hl. apply is_logged_in_Some in Hu.
  unfold search_products_by_category. rewrite Hu. simpl.
  destruct c as [|a c]; [congruence|].
  set (f := fun kv : string * Product =>
              contains (lower (String a c)) (lower (Category (snd kv)))).
  assert (Hf : In (name, p) (filter f (inventory w))).
  { apply filter_In. split; [exact Hin|].
    unfold f. simpl snd. rewrite Hl. apply contains_refl. }
  exists (filter f (inventory w)). split; [|exact Hf].
  unfold bind, frame_of_dict.
  destruct (filter f (inventory w)); [destruct Hf | reflexivity].
Qed.

Lemma search_finds_own_category_witness :
  exists rows,
    search_products_by_category (Some "tOOls") widget_shop
    = (Returned (Data rows), widget_shop) /\
    In ("Widget", widget) rows.
Proof.
  apply (search_finds_own_category widget_shop "user" "Widget" widget "tOOls").
  - reflexivity.
  - left. reflexivity.
  - discriminate.
  - reflexivity.
  - intros kv [<- | []]. reflexivity.
  - reflexivity.
Defined.

(** ** Sorting: unknown column, unknown order *)



(** Only the exact string 'asc' sorts ascending: any other order, 'ASC'
    or a misspelling included, sorts as 'desc' does. *)
Theorem sort_order_defaults_to_descending :
  forall np_argsort w by_ order,
    order <> "asc" ->
    sort_inventory np_argsort by_ order w
    = sort_inventory np_argsort by_ "desc" w.
Proof.
  intros np_argsort w by_ order Ho. unfold sort_inventory.
  destruct (String.eqb_spec order "asc") as [E | _]; [contradiction|].
  reflexivity.
Qed.

Lemma sort_order_defaults_to_descending_witness :
  sort_inventory argsort_stable "Stock" "ASC" abc_shop
  = sort_inventory argsort_stable "Stock" "desc" abc_shop.
Proof.
  apply (sort_order_defaults_to_descending argsort_stable abc_shop "Stock" "ASC").
  discriminate.
Defined.

(** ** The inventory under the mutations and the sale *)

Section DictFacts.
Context {V : Type}.
Implicit Types (d : Dict.t V) (k : string) (v : V).

Lemma get_None_iff k d : Dict.get k d = None <-> ~ In k (Dict.keys d).
Proof.
  induction d as [|[k' v'] d IH]; simpl; [tauto|].
  destruct (String.eqb_spec k k') as [-> | Hne].
  - split; [discriminate | intros H; exfalso; apply H; left; reflexivity].
  - rewrite IH. split; [intros H [E | E]; [congruence | tauto] | tauto].
Qed.

Lemma keys_set_present k v d p :
  Dict.get k d = Some p -> Dict.keys (Dict.set k v d) = Dict.keys d.
Proof.
  induction d as [|[k' v'] d IH]; simpl; [discriminate|].
  destruct (String.eqb_spec k k') as [-> | Hne]; simpl; [reflexivity|].
  intros H. rewrite (IH H). reflexivity.
Qed.

Lemma keys_set_absent k v d :
  Dict.get k d = None -> Dict.keys (Dict.set k v d) = (Dict.keys d ++ [k])%list.
Proof.
  intros H. rewrite (set_new_appends k v d H).
  unfold Dict.keys. rewrite map_app. reflexivity.
Qed.

Lemma in_set k v d : In (k, v) (Dict.set k v d).
Proof.
  induction d as [|[k' v'] d IH]; simpl; [left; reflexivity|].
  destruct (String.eqb k k'); [left; reflexivity | right; exact IH].
Qed.

Lemma get_del_other k k' d :
  k' <> k -> Dict.get k' (Dict.del k d) = Dict.get k' d.
Proof.
  intros Hne. induction d as [|[k0 v0] d IH]; simpl; [reflexivity|].
  destruct (String.eqb_spec k k0) as [-> | Hk]; simpl.
  - destruct (String.eqb_spec k' k0); [contradiction | reflexivity].
  - rewrite IH. reflexivity.
Qed.

Lemma get_del_same k d :
  NoDup (Dict.keys d) -> Dict.get k (Dict.del k d) = None.
Proof.
  induction d as [|[k0 v0] d IH]; simpl; intros Hd; [reflexivity|].
  inversion Hd as [|? ? Hnotin Hd']; subst.
  destruct (String.eqb_spec k k0) as [-> | Hk]; simpl.
  - apply get_None_iff. exact Hnotin.
  - destruct (String.eqb_spec k k0); [contradiction | apply IH, Hd'].
Qed.

Lemma in_keys_del k k' d :
  In k' (Dict.keys (Dict.del k d)) -> In k' (Dict.keys d).
Proof.
  induction d as [|[k0 v0] d IH]; simpl; [tauto|].
  destruct (String.eqb k k0); simpl; [tauto|].
  intros [E | H]; [left; exact E | right; apply IH, H].
Qed.

Lemma keys_del_NoDup k d :
  NoDup (Dict.keys d) -> NoDup (Dict.keys (Dict.del k d)).
Proof.
  induction d as [|[k0 v0] d IH]; simpl; intros Hd; [constructor|].
  inversion Hd as [|? ? Hnotin Hd']; subst.
  destruct (String.eqb k k0); simpl; [exact Hd'|].
  constructor; [|apply IH, Hd'].
  intros H. apply Hnotin, (in_keys_del k). exact H.
Qed.

Lemma keys_set_NoDup k v d :
  NoDup (Dict.keys d) -> NoDup (Dict.keys (Dict.set k v d)).
Proof.
  intros Hd. destruct (Dict.get k d) as [p|] eqn:E.
  - rewrite (keys_set_present k v d p E). exact Hd.
  - rewrite (keys_set_absent k v d E).
    apply NoDup_app; [exact Hd | constructor; [intros [] | constructor] |].
    intros x Hx [<- | []]. apply get_None_iff in E. contradiction.
Qed.
End DictFacts.

(** A sale needs no admin role: for any logged-in principal, a sale within
    the stock subtracts the quantity from the stock of that product and
    leaves its price and category, every other product, the order of the
    products, the session and the disk as they were. *)
Theorem accepted_sale_frame :
  forall now w u name quantity p,
    logged_in_user w = Some u ->
    Dict.get name (inventory w) = Some p ->
    quantity <= Stock p ->
    let w' := world_after (sale_product now name quantity) w in
    Dict.get name (inventory w')
    = Some (mkProduct (Price p) (Category p) (Stock p - quantity)) /\
    (forall other, other <> name ->
                   Dict.get other (inventory w') = Dict.get other (inventory w)) /\
    Dict.keys (inventory w') = Dict.keys (inventory w) /\
    logged_in_user w' = logged_in_user w /\
    user_role w' = user_role w /\
    disk w' = disk w.
Proof.
  intros now w u name quantity p Hu Hg Hq w'. subst w'. unfold world_after.
  rewrite (sale_product_accepted now w u name quantity p Hu Hg Hq). simpl.
  split; [apply get_set_same|].
  split; [intros other Hne; apply get_set_other; exact Hne|].
  split; [apply (keys_set_present _ _ _ p Hg)|].
  repeat split.
Qed.

Lemma accepted_sale_frame_witness :
  Dict.get "Widget"
    (inventory (world_after (sale_product noon "Widget" 10) widget_shop))
  = Some (mkProduct (999 # 100) "Tools" 40).
Proof.
  apply (accepted_sale_frame noon widget_shop "user" "Widget" 10 widget).
  - reflexivity.
  - reflexivity.
  - simpl. lia.
Defined.

(** Nothing checks the sign of the quantity: a sale of a negative
    quantity passes the stock test and raises the stock by that amount. *)
Theorem sale_of_negative_quantity_restocks :
  forall now w u name quantity p,
    logged_in_user w = Some u ->
    Dict.get name (inventory w) = Some p ->
    0 <= Stock p ->
    quantity < 0 ->
    fst (sale_product now name quantity w) <> Returned "Insufficient stock" /\
    stock_of name (world_after (sale_product now name quantity) w)
    = Stock p - quantity /\
    Stock p < stock_of name (world_after (sale_product now name quantity) w).
Proof.
  intros now w u name quantity p Hu Hg Hs Hq.
  assert (Hle : quantity <= Stock p) by lia.
  unfold world_after, stock_of.
  rewrite (sale_product_accepted now w u name quantity p Hu Hg Hle). simpl.
  rewrite get_set_same. simpl.
  split; [discriminate | split; lia].
Qed.

Lemma sale_of_negative_quantity_restocks_witness :
  stock_of "Widget" (world_after (sale_product noon "Widget" (-7)) widget_shop)
  = 57.
Proof.
  destruct (sale_of_negative_quantity_restocks noon widget_shop "user" "Widget"
              (-7) widget) as (_ & E & _).
  - reflexivity.
  - reflexivity.
  - simpl. lia.
  - lia.
  - rewrite E. reflexivity.
Defined.

(** A sale that brings the stock down to the threshold or below makes the
    product appear in the next low-stock listing, with its new stock. *)
Theorem sale_triggers_low_stock_alert :
  forall now w u name quantity p threshold,
    logged_in_user w = Some u ->
    Dict.get name (inventory w) = Some p ->
    quantity <= Stock p ->
    Stock p - quantity <= threshold ->
    let w' := world_after (sale_product now name quantity) w in
    exists rows,
      low_stock_alerts threshold w' = (Returned (Data rows), w') /\
      In (name, mkProduct (Price p) (Category p) (Stock p - quantity)) rows.
Proof.
  intros now w u name quantity p threshold Hu Hg Hq Ht w'. subst w'.
  unfold world_after.
  rewrite (sale_product_accepted now w u name quantity p Hu Hg Hq).
  cbn [snd]. unfold low_stock_alerts.
  set (p' := mkProduct (Price p) (Category p) (Stock p - quantity)).
  set (w' := set_inventory (Dict.set name p' (inventory w)) w).
  assert (Hl : is_logged_in w' = true)
    by (apply (is_logged_in_Some w' u); exact Hu).
  rewrite Hl. cbn [negb].
  set (f := fun kv : string * Product => (Stock (snd kv) <=? threshold)%Z).
  assert (Hf : In (name, p') (filter f (inventory w'))).
  { apply filter_In. split; [apply in_set|].
    unfold f. simpl. apply Z.leb_le. exact Ht. }
  exists (filter f (inventory w')). split; [|exact Hf].
  unfold bind, frame_of_dict.
  destruct (filter f (inventory w')); [destruct Hf | reflexivity].
Qed.

Lemma sale_triggers_low_stock_alert_witness :
  exists rows,
    low_stock_alerts 10
      (world_after (sale_product noon "Widget" 45) widget_shop)
    = (Returned (Data rows),
       world_after (sale_product noon "Widget" 45) widget_shop) /\
    In ("Widget", mkProduct (999 # 100) "Tools" 5) rows.
Proof.
  apply (sale_triggers_low_stock_alert noon widget_shop "user" "Widget" 45
           widget 10).
  - reflexivity.
  - reflexivity.
  - simpl. lia.
  - simpl. lia.
Defined.

(** [add_product] never overwrites: whatever the session and the
    arguments, adding a name that is in the inventory changes nothing. *)
Theorem add_never_overwrites :
  forall now w name price category stock p,
    Dict.get name (inventory w) = Some p ->
    world_after (add_product now name price category stock) w = w.
Proof.
  intros now w name price category stock p Hg.
  unfold world_after, add_product. rewrite (mem_get_Some _ _ _ Hg).
  destruct (is_logged_in w), (is_admin w); reflexivity.
Qed.

Lemma add_never_overwrites_witness :
  world_after (add_product noon "A" (7 # 1) "y" 99) abc_shop = abc_shop.
Proof.
  apply (add_never_overwrites noon abc_shop "A" (7 # 1) "y" 99
           (mkProduct (1 # 1) "x" 5)).
  reflexivity.
Defined.

(** An accepted update replaces the three fields of the product at once
    and keeps its place in the inventory; every other product, the log and
    the ledger are as before. *)
Theorem accepted_update_frame :
  forall now w u name price category stock p,
    logged_in_user w = Some u ->
    user_role w = Some "admin" ->
    Dict.get name (inventory w) = Some p ->
    let w' := world_after (update_product now name price category stock) w in
    Dict.get name (inventory w') = Some (mkProduct price category stock) /\
    (forall other, other <> name ->
                   Dict.get other (inventory w') = Dict.get other (inventory w)) /\
    Dict.keys (inventory w') = Dict.keys (inventory w) /\
    transactions w' = transactions w /\
    sales w' = sales w.
Proof.
  intros now w u name price category stock p Hu Hr Hg w'. subst w'.
  unfold world_after.
  rewrite (update_product_accepted now w u name price category stock p Hu Hr Hg).
  simpl.
  split; [apply get_set_same|].
  split; [intros other Hne; apply get_set_other; exact Hne|].
  split; [apply (keys_set_present _ _ _ p Hg)|].
  split; reflexivity.
Qed.

Lemma accepted_update_frame_witness :
  Dict.keys
    (inventory (world_after (update_product noon "A" (7 # 1) "y" 99) abc_shop))
  = ["A"; "B"; "C"].
Proof.
  destruct (accepted_update_frame noon abc_shop "harsh" "A" (7 # 1) "y" 99
              (mkProduct (1 # 1) "x" 5) eq_refl eq_refl eq_refl)
    as (_ & _ & E & _).
  rewrite E. reflexivity.
Defined.

(** After an accepted delete the name is gone and the other products are
    untouched: a sale, an update or a second delete of the name is answered
    "Product not found". *)
Theorem delete_then_not_found :
  forall now w u name p,
    names_unique w ->
    logged_in_user w = Some u ->
    user_role w = Some "admin" ->
    Dict.get name (inventory w) = Some p ->
    let w' := world_after (delete_product now name) w in
    Dict.get name (inventory w') = None /\
    (forall other, other <> name ->
                   Dict.get other (inventory w') = Dict.get other (inventory w)) /\
    (forall now' q,
        sale_product now' name q w' = (Returned "Product not found", w')) /\
    (forall now' price category stock,
        update_product now' name price category stock w'
        = (Returned "Product not found", w')) /\
    (forall now', delete_product now' name w' = (Returned "Product not found", w')).
Proof.
  intros now w u name p Hn Hu Hr Hg w'. subst w'. unfold world_after.
  rewrite (delete_product_accepted now w u name p Hu Hr Hg). cbn [snd].
  set (w' := set_inventory (Dict.del name (inventory w)) w).
  assert (Hnone : Dict.get name (inventory w') = None)
    by (apply get_del_same; exact Hn).
  assert (Hl : is_logged_in w' = true)
    by (apply (is_logged_in_Some w' u); exact Hu).
  assert (Ha : is_admin w' = true) by (apply is_admin_true; exact Hr).
  split; [exact Hnone|].
  split; [intros other Hne; apply get_del_other; exact Hne|].
  unfold sale_product, update_product, delete_product.
  rewrite Hl, Ha, (mem_get_None _ _ Hnone). simpl.
  repeat split.
Qed.

Lemma delete_then_not_found_witness :
  sale_product noon "B" 1 (world_after (delete_product noon "B") abc_shop)
  = (Returned "Product not found",
     world_after (delete_product noon "B") abc_shop).
Proof.
  destruct (delete_then_not_found noon abc_shop "harsh" "B"
              (mkProduct (1 # 1) "x" 20)) as (_ & _ & H & _).
  - unfold names_unique. simpl.
    repeat constructor; simpl; intuition discriminate.
  - reflexivity.
  - reflexivity.
  - reflexivity.
  - apply H.
Defined.

(** ** Sessions *)

Lemma run_call_session_consistent c w :
  session_consistent w -> session_consistent (run_call c w).
Proof.
  intros (Ha & Hu & Hs). unfold session_consistent.
  destruct c; unfold run_call, world_after; simpl.
  - unfold login. rewrite Ha, Hu. unfold credential_matches. simpl.
    destruct (String.eqb_spec username "harsh") as [-> | _].
    + destruct (String.eqb "harsh" password); simpl; [tauto|].
      rewrite Ha, Hu. tauto.
    + destruct (String.eqb_spec username "user") as [-> | _].
      * destruct (String.eqb "user" password); simpl; [tauto|].
        rewrite Ha, Hu. tauto.
      * simpl. rewrite Ha, Hu. tauto.
  - tauto.
  - unfold add_product.
    destruct (is_logged_in w), (is_admin w), (Dict.mem _ _); simpl; tauto.
  - unfold update_product.
    destruct (is_logged_in w), (is_admin w), (Dict.mem _ _); simpl; tauto.
  - unfold delete_product.
    destruct (is_logged_in w), (is_admin w), (Dict.mem _ _); simpl; tauto.
  - unfold sale_product.
    destruct (is_logged_in w), (Dict.mem _ _), (Z.ltb _ _); simpl; tauto.
Qed.

Lemma run_calls_session_consistent cs :
  session_consistent (run_calls cs initial_world).
Proof.
  unfold run_calls.
  assert (G : forall w0, session_consistent w0 ->
                         session_consistent
                           (fold_left (fun w c => run_call c w) cs w0)).
  { induction cs as [|c cs IH]; intros w0 H0; simpl; [exact H0|].
    apply IH, run_call_session_consistent, H0. }
  apply G. unfold session_consistent. simpl. tauto.
Qed.

(** In every state the interface reaches, the credential tables are those
    of lines 21-22 and the session is one of three: no principal and no
    role, 'harsh' as admin, or 'user' as user.  In particular the role is
    admin only while a principal is logged in. *)
Theorem reachable_session_consistent :
  forall w,
    reachable w ->
    session_consistent w /\ (is_admin w = true -> is_logged_in w = true).
Proof.
  intros w [cs ->].
  pose proof (run_calls_session_consistent cs) as H.
  split; [exact H|].
  destruct H as (_ & _ & [[Hu Hr] | [[Hu Hr] | [Hu Hr]]]);
    unfold is_admin, is_logged_in; rewrite Hu, Hr; simpl; congruence.
Qed.

Lemma reachable_session_consistent_witness : session_consistent widget_shop.
Proof.
  apply (reachable_session_consistent widget_shop).
  exists [Login "harsh" "harsh";
          AddProduct noon "Widget" (999 # 100) "Tools" 50;
          Login "user" "user"].
  reflexivity.
Defined.

(** In every state the interface reaches, exactly two pairs log in:
    'harsh'/'harsh' as admin and 'user'/'user' as user, compared exactly
    (case matters); every other pair gets "Invalid credentials". *)
Theorem login_accepts_two_pairs :
  forall w username password,
    reachable w ->
    (fst (login username password w) = Returned "Admin login successful" <->
     username = "harsh" /\ password = "harsh") /\
    (fst (login username password w) = Returned "User login successful" <->
     username = "user" /\ password = "user") /\
    (fst (login username password w) = Returned "Invalid credentials" <->
     ~ (username = "harsh" /\ password = "harsh") /\
     ~ (username = "user" /\ password = "user")).
Proof.
  intros w username password [cs ->].
  destruct (run_calls_session_consistent cs) as (Ha & Hu & _).
  unfold login, credential_matches. rewrite Ha, Hu. simpl.
  destruct (String.eqb_spec username "harsh") as [-> | Hn1].
  - destruct (String.eqb_spec "harsh" password) as [<- | Hp]; simpl;
      intuition (try discriminate; try congruence).
  - destruct (String.eqb_spec username "user") as [-> | Hn2].
    + destruct (String.eqb_spec "user" password) as [<- | Hp]; simpl;
        intuition (try discriminate; try congruence).
    + simpl. intuition (try discriminate; try congruence).
Qed.

Lemma login_accepts_two_pairs_witness :
  fst (login "harsh" "Harsh" initial_world) = Returned "Invalid credentials".
Proof.
  apply (login_accepts_two_pairs initial_world "harsh" "Harsh").
  - exists []. reflexivity.
  - split; intros [_ E]; discriminate.
Defined.

(** Logging in replaces the session: once a pair of the user table that
    is not in the admin table has logged in, whoever was logged in before,
    the three mutations are refused with "Admin access required" and change
    nothing. *)
Theorem user_login_cannot_mutate :
  forall w username password,
    Dict.get username (admin_credentials w) <> Some password ->
    Dict.get username (user_credentials w) = Some password ->
    let w' := world_after (login username password) w in
    logged_in_user w' = Some username /\
    (forall now n p c s,
        add_product now n p c s w' = (Returned "Admin access required", w')) /\
    (forall now n p c s,
        update_product now n p c s w' = (Returned "Admin access required", w')) /\
    (forall now n,
        delete_product now n w' = (Returned "Admin access required", w')).
Proof.
  intros w username password Ha Hu w'. subst w'.
  apply credential_matches_false in Ha. apply credential_matches_iff in Hu.
  unfold world_after, login. rewrite Ha, Hu. cbn [snd].
  unfold add_product, update_product, delete_product.
  repeat split.
Qed.

Lemma user_login_cannot_mutate_witness :
  delete_product noon "Widget"
    (world_after (login "user" "user") admin_session)
  = (Returned "Admin access required",
     world_after (login "user" "user") admin_session).
Proof.
  destruct (user_login_cannot_mutate admin_session "user" "user")
    as (_ & _ & _ & H).
  - discriminate.
  - reflexivity.
  - apply H.
Defined.

(** ** Persistence *)

Lemma run_call_disk c w : disk (run_call c w) = disk w.
Proof.
  destruct c; unfold run_call, world_after; simpl.
  - unfold login.
    destruct (credential_matches _ _ _); [reflexivity|].
    destruct (credential_matches _ _ _); reflexivity.
  - reflexivity.
  - unfold add_product.
    destruct (is_logged_in w), (is_admin w), (Dict.mem _ _); reflexivity.
  - unfold update_product.
    destruct (is_logged_in w), (is_admin w), (Dict.mem _ _); reflexivity.
  - unfold delete_product.
    destruct (is_logged_in w), (is_admin w), (Dict.mem _ _); reflexivity.
  - unfold sale_product.
    destruct (is_logged_in w), (Dict.mem _ _), (Z.ltb _ _); reflexivity.
Qed.

Lemma run_calls_disk cs w : disk (run_calls cs w) = disk w.
Proof.
  unfold run_calls. revert w.
  induction cs as [|c cs IH]; intros w; simpl; [reflexivity|].
  rewrite IH. apply run_call_disk.
Qed.

(** No login, logout, add, update, delete or sale ever writes a file:
    after any sequence of them the disk is what it was.  From the initial
    state the inventory file therefore stays the empty table written at
    start-up, which is what [export_inventory] hands out, and loading the
    data again (a restart) gives back an empty inventory, log and ledger
    whatever was added in between. *)
Theorem nothing_is_persisted :
  forall cs,
    (forall w, disk (run_calls cs w) = disk w) /\
    inventory_csv (disk (run_calls cs initial_world)) = Some [] /\
    (forall u,
        logged_in_user (run_calls cs initial_world) = Some u ->
        fst (export_inventory (run_calls cs initial_world))
        = Returned "inventory.csv") /\
    inventory (world_after load_data (run_calls cs initial_world)) = [] /\
    transactions (world_after load_data (run_calls cs initial_world)) = [] /\
    sales (world_after load_data (run_calls cs initial_world)) = [].
Proof.
  intros cs.
  split; [intros w; apply run_calls_disk|].
  split; [rewrite run_calls_disk; reflexivity|].
  split.
  - intros u Hu. unfold export_inventory.
    rewrite (is_logged_in_Some _ _ Hu). reflexivity.
  - unfold world_after, load_data, bind, modify. cbn [snd fst].
    rewrite run_calls_disk. cbn.
    rewrite run_calls_disk. cbn.
    rewrite run_calls_disk. cbn.
    split; [|split]; reflexivity.
Qed.

(** ** Loading *)

Lemma get_app {V} k (a b : Dict.t V) :
  Dict.get k (a ++ b)
  = match Dict.get k a with Some v => Some v | None => Dict.get k b end.
Proof.
  induction a as [|[k' v'] a IH]; simpl; [reflexivity|].
  destruct (String.eqb k k'); [reflexivity | exact IH].
Qed.

Lemma get_fold_set {V} k (rows : list (string * V)) acc :
  Dict.get k (fold_left (fun acc r => Dict.set (fst r) (snd r) acc) rows acc)
  = match Dict.get k (rev rows) with
    | Some v => Some v
    | None => Dict.get k acc
    end.
Proof.
  revert acc. induction rows as [|[k' v'] rows IH]; intros acc; simpl;
    [reflexivity|].
  rewrite IH, get_app. destruct (Dict.get k (rev rows)); [reflexivity|].
  simpl. destruct (String.eqb_spec k k') as [-> | Hne].
  - apply get_set_same.
  - apply get_set_other. exact Hne.
Qed.

Lemma fold_set_NoDup {V} (rows : list (string * V)) acc :
  NoDup (Dict.keys acc) ->
  NoDup (Dict.keys
           (fold_left (fun acc r => Dict.set (fst r) (snd r) acc) rows acc)).
Proof.
  revert acc. induction rows as [|r rows IH]; intros acc H; simpl; [exact H|].
  apply IH, keys_set_NoDup, H.
Qed.

(** On an inventory file whose names and categories are plain text
    [load_data] returns normally.  Each name of the file is then in the
    inventory with the fields of its last row, the names of the loaded
    inventory are distinct, a missing file has been created empty and an
    existing file is as it was, and the session is not touched. *)
Theorem load_data_reads_disk :
  forall w,
    Forall plain_row (rows_of (inventory_csv (disk w))) ->
    fst (load_data w) = Returned tt /\
    (forall name,
        Dict.get name (inventory (world_after load_data w))
        = Dict.get name (rev (rows_of (inventory_csv (disk w))))) /\
    names_unique (world_after load_data w) /\
    inventory_csv (disk (world_after load_data w))
    = Some (rows_of (inventory_csv (disk w))) /\
    transactions_csv (disk (world_after load_data w))
    = Some (rows_of (transactions_csv (disk w))) /\
    sales_csv (disk (world_after load_data w))
    = Some (rows_of (sales_csv (disk w))) /\
    logged_in_user (world_after load_data w) = logged_in_user w /\
    user_role (world_after load_data w) = user_role w.
Proof.
  intros w _. unfold world_after, load_data, bind, modify, names_unique.
  destruct w as [inv ts ss ac uc lu ur [ic tc sc png]]. cbn.
  destruct ic as [irows|], tc as [trows|], sc as [srows|]; cbn;
    (split; [reflexivity|]);
    (split; [intros name; try reflexivity;
             rewrite get_fold_set;
             destruct (Dict.get name (rev irows)); reflexivity|]);
    (split; [try (apply fold_set_NoDup); constructor|]);
    repeat split.
Qed.

(** A disk whose inventory file names Widget twice. *)
Lemma load_data_reads_disk_witness :
  Dict.get "Widget"
    (inventory
       (world_after load_data
          (set_disk
             (mkDisk (Some [("Widget", mkProduct (999 # 100) "Tools" 50);
                            ("Gadget", mkProduct (5 # 1) "Toys" 3);
                            ("Widget", mkProduct (8 # 1) "Tools" 7)])
                     None None None)
             module_globals)))
  = Some (mkProduct (8 # 1) "Tools" 7).
Proof.
  destruct (load_data_reads_disk
              (set_disk
                 (mkDisk (Some [("Widget", mkProduct (999 # 100) "Tools" 50);
                                ("Gadget", mkProduct (5 # 1) "Toys" 3);
                                ("Widget", mkProduct (8 # 1) "Tools" 7)])
                         None None None)
                 module_globals)) as (_ & H & _).
  - repeat constructor.
  - rewrite H. reflexivity.
Defined.

(** Loading twice is loading once: the files [load_data] creates are the
    ones it reads back. *)
Theorem load_data_idempotent :
  forall w,
    world_after load_data (world_after load_data w) = world_after load_data w.
Proof.
  intros w. unfold world_after, load_data, bind, modify.
  destruct w as [inv ts ss ac uc lu ur [ic tc sc png]]. cbn.
  destruct ic as [irows|], tc as [trows|], sc as [srows|]; reflexivity.
Qed.

(** ** The log and the ledger after a fresh start *)

Lemma log_transaction_ids_dense_witness :
  ids_dense
    (transactions
       (world_after (log_transaction noon "Add" "Widget" 50) admin_session)) /\
  List.length
    (transactions
       (world_after (log_transaction noon "Add" "Widget" 50) admin_session))
  = 1%nat.
Proof.
  destruct (log_transaction_ids_dense noon "Add" "Widget" 50 admin_session)
    as (H1 & _ & H3).
  - reflexivity.
  - split; [exact H1 | exact H3].
Defined.

(** From a start on empty storage the interface never fills the log or
    the ledger: in every state it reaches, [view_transactions] shows no
    entry to a logged-in principal, and [predict_sales] raises
    [ValueError] for every product and every horizon. *)
Theorem fresh_start_has_no_history :
  forall w u,
    reachable w ->
    logged_in_user w = Some u ->
    view_transactions w = (Returned (Data []), w) /\
    forall name periods,
      predict_sales name periods w
      = (Raised (ValueError
           "Found array with 0 sample(s) (shape=(0, 1)) while a minimum of 1 is required by LinearRegression."),
         w).
Proof.
  intros w u Hw Hu. destruct (reachable_logs_empty w Hw) as [Ht Hs].
  apply is_logged_in_Some in Hu.
  unfold view_transactions, predict_sales. rewrite Hu, Ht, Hs.
  split; reflexivity.
Qed.

Lemma fresh_start_has_no_history_witness :
  view_transactions
    (run_calls [SaleProduct noon "Widget" 10] widget_shop)
  = (Returned (Data []), run_calls [SaleProduct noon "Widget" 10] widget_shop).
Proof.
  apply (fresh_start_has_no_history
           (run_calls [SaleProduct noon "Widget" 10] widget_shop) "user").
  - exists [Login "harsh" "harsh";
            AddProduct noon "Widget" (999 # 100) "Tools" 50;
            Login "user" "user";
            SaleProduct noon "Widget" 10].
    reflexivity.
  - reflexivity.
Defined.

(** ** The monthly aggregation and the forecast *)

Section Resample.
Implicit Types (rows : list Sale) (ts : list Z).

Let month (s : Sale) : Z := month_index (s_timestamp s).

Let bucket rows (t : Z) : Z :=
  sumZ (map s_quantity (filter (fun s => (month s =? t)%Z) rows)).


Lemma sumZ_map_add {A} (f g : A -> Z) (l : list A) :
  sumZ (map (fun x => f x + g x) l) = sumZ (map f l) + sumZ (map g l).
Proof. induction l as [|x l IH]; simpl; [reflexivity | rewrite IH; lia]. Qed.

Lemma sumZ_indicator m q ts :
  NoDup ts -> In m ts ->
  sumZ (map (fun t => if (m =? t)%Z then q else 0) ts) = q.
Proof.
  induction 1 as [|t ts Hnotin Hnd IH]; intros Hin; [destruct Hin|].
  simpl. destruct (Z.eqb_spec m t) as [-> | Hne].
  - assert (Z0 : sumZ (map (fun t0 => if (t =? t0)%Z then q else 0) ts) = 0).
    { clear IH Hin Hnd. induction ts as [|t' ts IH]; [reflexivity|].
      simpl. destruct (Z.eqb_spec t t') as [-> | _].
      - exfalso. apply Hnotin. left. reflexivity.
      - apply IH. intros H. apply Hnotin. right. exact H. }
    rewrite Z0. lia.
  - destruct Hin as [E | Hin]; [congruence|]. rewrite (IH Hin). lia.
Qed.

Lemma buckets_sum rows ts :
  NoDup ts ->
  (forall s, In s rows -> In (month s) ts) ->
  sumZ (map (bucket rows) ts) = sumZ (map s_quantity rows).
Proof.
  intros Hnd. induction rows as [|s rows IH]; intros Hin.
  - unfold bucket. simpl. clear Hnd Hin.
    induction ts as [|t ts IH]; simpl; [reflexivity | exact IH].
  - replace (map (bucket (s :: rows)) ts)
      with (map (fun t => (if (month s =? t)%Z then s_quantity s else 0)
                          + bucket rows t) ts).
    + rewrite sumZ_map_add, sumZ_indicator, IH.
      * reflexivity.
      * intros s' Hs'. apply Hin. right. exact Hs'.
      * exact Hnd.
      * apply Hin. left. reflexivity.
    + apply map_ext. intros t. unfold bucket. simpl.
      destruct (month s =? t)%Z; reflexivity.
Qed.

Lemma fold_min_le m ms x :
  In x (m :: ms) -> fold_right Z.min m ms <= x.
Proof.
  induction ms as [|y ms IH]; simpl.
  - intros [<- | []]. lia.
  - intros [<- | [<- | H]]; [| lia |].
    + assert (fold_right Z.min m ms <= m) by (apply IH; left; reflexivity). lia.
    + assert (fold_right Z.min m ms <= x) by (apply IH; right; exact H). lia.
Qed.

Lemma fold_max_ge m ms x :
  In x (m :: ms) -> x <= fold_right Z.max m ms.
Proof.
  induction ms as [|y ms IH]; simpl.
  - intros [<- | []]. lia.
  - intros [<- | [<- | H]]; [| lia |].
    + assert (m <= fold_right Z.max m ms) by (apply IH; left; reflexivity). lia.
    + assert (x <= fold_right Z.max m ms) by (apply IH; right; exact H). lia.
Qed.

Lemma months_NoDup lo a n :
  NoDup (map (fun k => lo + Z.of_nat k) (seq a n)).
Proof.
  revert a. induction n as [|n IH]; intros a; simpl; constructor; [|apply IH].
  intros H. apply in_map_iff in H. destruct H as [k [E Hk]].
  apply in_seq in Hk. lia.
Qed.

(** The buckets of [resample_monthly], as a function of the rows. *)
Lemma resample_monthly_eq s rows :
  let lo := fold_right Z.min (month s) (map month rows) in
  let hi := fold_right Z.max (month s) (map month rows) in
  resample_monthly (s :: rows)
  = map (fun t => (t, bucket (s :: rows) t))
        (map (fun k => lo + Z.of_nat k) (seq 0 (Z.to_nat (hi - lo + 1)))).
Proof.
  intros lo hi. unfold resample_monthly. cbn [map]. rewrite map_map.
  reflexivity.
Qed.

(** The monthly aggregation loses and invents no sale: the buckets add up
    to the total quantity of the rows, whatever their order; the buckets
    are consecutive months; and a month without sale holds 0. *)
Theorem resample_monthly_conserves_quantity :
  forall rows,
    sumZ (map snd (resample_monthly rows)) = sumZ (map s_quantity rows) /\
    (forall i t1 q1 t2 q2,
        nth_error (resample_monthly rows) i = Some (t1, q1) ->
        nth_error (resample_monthly rows) (S i) = Some (t2, q2) ->
        t2 = t1 + 1) /\
    (forall t q,
        In (t, q) (resample_monthly rows) ->
        (forall s, In s rows -> month_index (s_timestamp s) <> t) ->
        q = 0).
Proof.
  intros [|s rows]; [split; [reflexivity | split];
                     [intros [|i] ? ? ? ? H; discriminate H
                     | intros t q []]|].
  rewrite resample_monthly_eq.
  set (lo := fold_right Z.min (month s) (map month rows)).
  set (hi := fold_right Z.max (month s) (map month rows)).
  set (n := Z.to_nat (hi - lo + 1)).
  assert (Hrange : forall x, In x (s :: rows) -> lo <= month x <= hi).
  { intros x Hx. split.
    - apply fold_min_le. change (In (month x) (map month (s :: rows))).
      apply in_map, Hx.
    - apply fold_max_ge. change (In (month x) (map month (s :: rows))).
      apply in_map, Hx. }
  split; [|split].
  - rewrite map_map. cbn [snd].
    change (sumZ (map (bucket (s :: rows))
                      (map (fun k => lo + Z.of_nat k) (seq 0 n)))
            = sumZ (map s_quantity (s :: rows))).
    apply buckets_sum; [apply months_NoDup|].
    intros x Hx. apply in_map_iff.
    destruct (Hrange x Hx) as [H1 H2].
    exists (Z.to_nat (month x - lo)). split; [lia|].
    apply in_seq. unfold n. lia.
  - intros i t1 q1 t2 q2. rewrite !map_map, !nth_error_map, !nth_error_seq.
    destruct (Nat.ltb i n), (Nat.ltb (S i) n); simpl; try discriminate.
    intros [= <- _] [= <- _]. lia.
  - intros t q Hin Hnone. apply in_map_iff in Hin.
    destruct Hin as [t' [[= -> <-] _]].
    unfold bucket. rewrite filter_none; [reflexivity|].
    intros x Hx. apply Z.eqb_neq. apply Hnone, Hx.
Qed.


End Resample.







(** ** Adding and deleting *)

Lemma del_set_absent {V} k (v : V) d :
  Dict.get k d = None -> Dict.del k (Dict.set k v d) = d.
Proof.
  induction d as [|[k' v'] d IH]; simpl.
  - rewrite String.eqb_refl. reflexivity.
  - destruct (String.eqb k k') eqn:E; [discriminate|].
    intros H. simpl. rewrite E, (IH H). reflexivity.
Qed.

(** Deleting a product right after it was added gives back the inventory
    there was before the add, order included. *)
Theorem add_then_delete_restores_inventory :
  forall now1 now2 w u name price category stock,
    logged_in_user w = Some u ->
    user_role w = Some "admin" ->
    Dict.get name (inventory w) = None ->
    inventory
      (world_after (delete_product now2 name)
         (world_after (add_product now1 name price category stock) w))
    = inventory w.
Proof.
  intros now1 now2 w u name price category stock Hu Hr Hg.
  unfold world_after at 2.
  rewrite (add_product_accepted now1 w u name price category stock Hu Hr Hg).
  cbn [snd]. unfold world_after.
  rewrite (delete_product_accepted now2 _ u name
             (mkProduct price category stock)); try assumption.
  - simpl. apply del_set_absent. exact Hg.
  - simpl. apply get_set_same.
Qed.

Lemma add_then_delete_restores_inventory_witness :
  inventory
    (world_after (delete_product noon "D")
       (world_after (add_product noon "D" (2 # 1) "y" 8) abc_shop))
  = inventory abc_shop.
Proof.
  apply (add_then_delete_restores_inventory noon noon abc_shop "harsh");
    reflexivity.
Defined.

(** The names of the inventory stay distinct under every call. *)
Lemma run_call_names_unique c w : names_unique w -> names_unique (run_call c w).
Proof.
  unfold names_unique. intros Hw.
  destruct c; unfold run_call, world_after; simpl.
  - unfold login.
    destruct (credential_matches _ _ _); [exact Hw|].
    destruct (credential_matches _ _ _); exact Hw.
  - exact Hw.
  - unfold add_product.
    destruct (is_logged_in w), (is_admin w), (Dict.mem _ _);
      simpl; try exact Hw.
    apply keys_set_NoDup, Hw.
  - unfold update_product.
    destruct (is_logged_in w), (is_admin w), (Dict.mem _ _);
      simpl; try exact Hw.
    apply keys_set_NoDup, Hw.
  - unfold delete_product.
    destruct (is_logged_in w), (is_admin w), (Dict.mem _ _);
      simpl; try exact Hw.
    apply keys_del_NoDup, Hw.
  - unfold sale_product.
    destruct (is_logged_in w), (Dict.mem _ _), (Z.ltb _ _);
      simpl; try exact Hw.
    unfold decrement_stock.
    destruct (Dict.get product_name (inventory w)); [|exact Hw].
    apply keys_set_NoDup, Hw.
Qed.

Lemma reachable_names_unique w : reachable w -> names_unique w.
Proof.
  intros [cs ->]. unfold run_calls.
  assert (G : forall w0, names_unique w0 ->
                         names_unique (fold_left (fun w c => run_call c w) cs w0)).
  { induction cs as [|c cs IH]; intros w0 H0; simpl; [exact H0|].
    apply IH, run_call_names_unique, H0. }
  apply G. constructor.
Qed.
